(** * Response orchestration of the construction chatbot ([app.py])

    A shallow embedding of [ConstructionChatbot] and of the [respond]
    handler that drives it, followed by the properties of the domain gate,
    the routing, the fallback chain and the rolling memory window.

    Conventions of the embedding.
    - A Python [str] is a [string] whose characters are the code points
      U+0000..U+00FF; on that range [lower], [strip] and [len] below are
      exactly Python's.
    - [self] is threaded explicitly; an exception is a result [Exn msg] that
      carries [str(e)]; a state change made before a raise is kept, as in
      Python.
    - The language-model and crew collaborators are oracles ([World]); each
      call to one of them is appended to the call trace [calls]. A turn
      calls each of them at most once, so a function of the argument
      describes any behaviour of a collaborator within the turn.
    - Building [Agent], [Task] and [Crew] objects is plain data construction;
      the failures of the pipeline level are those of [kickoff].
    - [print] writes to the console only and is left out. *)

From Stdlib Require Import String Ascii List Arith Bool Lia DecimalString.
Import ListNotations.
Set Warnings "-register-all".
Local Open Scope list_scope.
Local Open Scope string_scope.

(** ** Python string primitives *)

Module PyStr.

(** [c.isspace()] for a code point below U+0100. *)
Definition is_space (c : ascii) : bool :=
  let n := nat_of_ascii c in
  (((9 <=? n) && (n <=? 13)) || ((28 <=? n) && (n <=? 32))
   || (n =? 133) || (n =? 160))%nat.

(** [c.lower()] for a code point below U+0100: A-Z and the upper-case
    letters U+00C0..U+00DE (U+00D7 is the multiplication sign). *)
Definition lower_char (c : ascii) : ascii :=
  let n := nat_of_ascii c in
  if (((65 <=? n) && (n <=? 90))
      || ((192 <=? n) && (n <=? 222) && negb (n =? 215)))%nat
  then ascii_of_nat (n + 32) else c.

(** [s.lower()] *)
Fixpoint lower (s : string) : string :=
  match s with
  | EmptyString => EmptyString
  | String c s' => String (lower_char c) (lower s')
  end.

(** [s.startswith(p)] *)
Fixpoint startswith (s p : string) {struct p} : bool :=
  match p, s with
  | EmptyString, _ => true
  | String _ _, EmptyString => false
  | String a p', String b s' => Ascii.eqb a b && startswith s' p'
  end.

(** [sub in s] *)
Fixpoint str_in (sub s : string) : bool :=
  startswith s sub
  || match s with
     | EmptyString => false
     | String _ s' => str_in sub s'
     end.

(** [s.lstrip()] *)
Fixpoint lstrip (s : string) : string :=
  match s with
  | EmptyString => EmptyString
  | String c s' => if is_space c then lstrip s' else s
  end.

(** [s.rstrip()] *)
Fixpoint rstrip (s : string) : string :=
  match s with
  | EmptyString => EmptyString
  | String c s' =>
      match rstrip s' with
      | EmptyString => if is_space c then EmptyString else String c EmptyString
      | r => String c r
      end
  end.

(** [s.strip()] *)
Definition strip (s : string) : string := rstrip (lstrip s).

(** [s[:n]] *)
Definition slice_to (n : nat) (s : string) : string := substring 0 n s.

(** [str(i)] for a non-negative integer, as an f-string field prints it. *)
Definition str_of_nat (i : nat) : string :=
  NilEmpty.string_of_uint (Nat.to_uint i).

(** [not s] *)
Definition is_empty (s : string) : bool :=
  match s with EmptyString => true | String _ _ => false end.

(** [any(p(x) for x in l)] *)
Definition any {A} (p : A -> bool) (l : list A) : bool := existsb p l.

(** [enumerate(l, start)] *)
Definition enumerate {A} (l : list A) (start : nat) : list (nat * A) :=
  combine (seq start (List.length l)) l.

Definition dquote : string := String (ascii_of_nat 34) EmptyString.

End PyStr.
Import PyStr.

(** ** Collaborators and their results *)

(** The one retrieval tool, [SerperDevTool()]. *)
Inductive Tool : Type := SerperDevTool.

(** [Agent(...)]: the persona handed to the stage-execution collaborator.
    The [llm] and [verbose] arguments are the same for both agents. *)
Record Agent : Type := mkAgent {
  role : string;
  goal : string;
  backstory : string;
  tools : list Tool;
  allow_delegation : bool;
  max_iter : nat;
  max_execution_time : nat
}.

(** [Task(description, expected_output, agent, context)] *)
Inductive Task : Type :=
  mkTask (description expected_output : string) (agent : Agent)
         (context : list Task).

Definition task_agent (t : Task) : Agent :=
  match t with mkTask _ _ a _ => a end.

Definition task_context (t : Task) : list Task :=
  match t with mkTask _ _ _ c => c end.

Definition task_description (t : Task) : string :=
  match t with mkTask d _ _ _ => d end.

(** [Crew(agents, tasks, verbose=False)] *)
Record Crew : Type := mkCrew {
  agents : list Agent;
  tasks : list Task
}.

(** What a call into a collaborator does: it returns text or it raises. *)
Inductive outcome : Type :=
  | Returns (text : string)
  | Raises (msg : string).

(** The collaborators of one turn. [kickoff c] is [str(c.kickoff())];
    [invoke p] is the text of [direct_llm.invoke(p)], that is its [content]
    attribute, or [str] of it when there is none. *)
Record World : Type := mkWorld {
  kickoff : Crew -> outcome;
  invoke : string -> outcome
}.

(** A call that left the orchestrator. *)
Inductive Event : Type :=
  | Kickoff (c : Crew)
  | Invoke (prompt : string).

(** ** The chatbot object *)

Definition Exchange : Type := (string * string)%type.

Record ConstructionChatbot : Type := mkBot {
  memory : list Exchange;
  search_tool : option Tool;
  construction_agent : Agent;
  research_agent : option Agent
}.

Definition set_memory (m : list Exchange) (b : ConstructionChatbot)
  : ConstructionChatbot :=
  mkBot m (search_tool b) (construction_agent b) (research_agent b).

(** The running system: the chatbot and the trace of collaborator calls. *)
Record Sys : Type := mkSys {
  self : ConstructionChatbot;
  calls : list Event
}.

(** ** State and exceptions *)

Inductive res (A : Type) : Type :=
  | Ok (a : A)
  | Exn (e : string).
Arguments Ok {A} a.
Arguments Exn {A} e.

Definition M (A : Type) : Type := Sys -> res A * Sys.

Definition ret {A} (a : A) : M A := fun s => (Ok a, s).

Definition bind {A B} (m : M A) (k : A -> M B) : M B :=
  fun s => match m s with
           | (Ok a, s') => k a s'
           | (Exn e, s') => (Exn e, s')
           end.

(** [try: body except Exception as e: handler(e)] *)
Definition try_except {A} (body : M A) (handler : string -> M A) : M A :=
  fun s => match body s with
           | (Ok a, s') => (Ok a, s')
           | (Exn e, s') => handler e s'
           end.

Definition get_self : M ConstructionChatbot := fun s => (Ok (self s), s).

Definition modify_memory (f : list Exchange -> list Exchange) : M unit :=
  fun s => (Ok tt, mkSys (set_memory (f (memory (self s))) (self s)) (calls s)).

(** A call into a collaborator: recorded, then its outcome. *)
Definition call (ev : Event) (o : outcome) : M string :=
  fun s => let s' := mkSys (self s) ((calls s ++ [ev])%list) in
           match o with
           | Returns r => (Ok r, s')
           | Raises e => (Exn e, s')
           end.

Declare Scope py_scope.
Delimit Scope py_scope with py.
Notation "x <- m ;; k" := (bind m (fun x => k))
  (at level 61, m at next level, right associativity) : py_scope.
Notation "m ;; k" := (bind m (fun _ => k))
  (at level 61, right associativity) : py_scope.
Local Open Scope py_scope.

(** ** Fixed texts of [app.py] *)

Module Text.

Definition decline : string :=
  "I can only assist with construction-related queries. Please ask about building, safety, materials, project management, or engineering topics.".

Definition rephrase : string :=
  "I apologize, but I'm having trouble generating a proper response. Could you please rephrase your construction-related question?".

Definition no_history : string := "No previous conversation.".

Definition construction_role : string :=
  "Construction Expert Assistant".
Definition construction_goal : string :=
  "Provide accurate construction-related information ONLY. Reject all non-construction queries.".
Definition construction_backstory : string :=
  "You are a specialized construction industry expert with deep knowledge in:
            - Building safety and regulations
            - Fire safety codes and compliance
            - Construction materials and costs
            - Project management methodologies
            - Heavy machinery and equipment
            - Civil engineering principles
            - Structural design and analysis
            - Site management and safety protocols
            
            IMPORTANT: You MUST ONLY respond to construction-related questions. 
            If a user asks about anything not related to construction, building, 
            engineering, safety, materials, or project management, you must respond 
            with EXACTLY: " ++ dquote ++ "I can only assist with construction-related queries. Please ask about building, safety, materials, project management, or engineering topics." ++ dquote ++ "
            
            When you need current information about construction topics, use the search tool.".

Definition research_role : string :=
  "Construction Research Specialist".
Definition research_goal : string :=
  "Search and gather current construction-related information from the internet ONLY".
Definition research_backstory : string :=
  "You are a specialized researcher focused exclusively on construction industry topics.
                You search for the most current information about:
                - Construction practices and regulations
                - Building costs and material prices
                - Safety standards and compliance requirements
                - Industry trends and new technologies
                - Engineering standards and best practices
                
                You ONLY research construction-related topics. If asked to research non-construction 
                topics, decline politely and redirect to construction subjects.".

Definition research_head : string :=
  "Search for current construction-related information about: ".
Definition research_tail : string :=
  "
                    
                    Focus on finding:
                    - Latest construction industry data
                    - Current material prices and costs
                    - Recent regulations and safety updates
                    - New construction technologies and methods
                    - Industry trends and market information
                    
                    Search query should be concise and focused on construction industry information.
                    ".
Definition research_expected : string :=
  "Current, accurate construction industry information and data".

Definition synthesis_head : string :=
  "Based on research findings and chat history, provide a comprehensive response to: ".
Definition synthesis_history : string :=
  "
                    
                    Chat history: ".
Definition synthesis_tail : string :=
  "
                    
                    Guidelines:
                    - Use the research data to provide accurate, current information
                    - Focus on construction industry expertise
                    - Provide practical, actionable advice
                    - Include specific details like prices, regulations, or technical specifications when available
                    - Structure the response clearly and professionally
                    ".
Definition synthesis_expected : string :=
  "Detailed, informative construction industry response with current data".

Definition advice_head : string :=
  "Provide expert construction advice for: ".
Definition advice_history : string :=
  "
                    
                    Chat history: ".
Definition advice_tail : string :=
  "
                    
                    Guidelines:
                    - Draw from your construction industry expertise
                    - Provide detailed, accurate information
                    - Include relevant safety considerations
                    - Suggest best practices and standards
                    - Structure the response professionally
                    ".
Definition advice_expected : string :=
  "Expert construction industry advice and information".

Definition prompt_head : string :=
  "You are a specialized construction industry AI assistant with expertise in building, safety, materials, project management, and engineering.

Chat history: ".
Definition prompt_question : string :=
  "

User question: ".
Definition prompt_tail : string :=
  "

Provide a detailed, professional response focusing on construction industry knowledge. Include specific information about safety standards, building codes, material specifications, cost estimates, or project management advice as relevant to the question.

Response:".

Definition difficulties : string :=
  "I apologize, but I'm experiencing technical difficulties. However, I can still help with construction-related questions about safety, materials, project management, and engineering. Please try rephrasing your question.

Technical error: ".

End Text.

(** ** Construction of the chatbot *)

(** What [SerperDevTool()] does at start-up. *)
Inductive built : Type :=
  | Built (t : Tool)
  | Failed (msg : string).

(** [setup_tools]: a failed construction leaves [search_tool = None]. *)
Definition setup_tools (o : built) : option Tool :=
  match o with
  | Built t => Some t
  | Failed _ => None
  end.

(** [setup_crew]: the two personas, from [self.search_tool]. *)
Definition setup_crew (search_tool : option Tool) : Agent * option Agent :=
  let tools := [] in
  let tools := match search_tool with
               | Some t => (tools ++ [t])%list
               | None => tools
               end in
  let construction_agent :=
    mkAgent Text.construction_role Text.construction_goal
            Text.construction_backstory tools false 3 45 in
  let research_agent :=
    match search_tool with
    | Some t =>
        Some (mkAgent Text.research_role Text.research_goal
                      Text.research_backstory [t] false 2 30)
    | None => None
    end in
  (construction_agent, research_agent).

(** [ConstructionChatbot()] *)
Definition init (o : built) : ConstructionChatbot :=
  let search_tool := setup_tools o in
  let '(construction_agent, research_agent) := setup_crew search_tool in
  mkBot [] search_tool construction_agent research_agent.

(** ** The rolling memory window *)

(** [add_to_memory]: append, then drop the head once the length exceeds 5. *)
Definition add_to_memory (user_query response : string) : M unit :=
  modify_memory (fun m => (m ++ [(user_query, response)])%list) ;;
  b <- get_self ;;
  if (5 <? List.length (memory b))%nat
  then modify_memory (@tl Exchange)
  else ret tt.

(** One iteration of the loop of [get_chat_history]. *)
Definition history_step (history : string) (x : nat * Exchange) : string :=
  let '(i, (user_msg, bot_msg)) := x in
  history ++ "Message " ++ str_of_nat i ++ ":
User: " ++ user_msg ++ "
Assistant: " ++ bot_msg ++ "

".

(** [get_chat_history] *)
Definition get_chat_history (b : ConstructionChatbot) : string :=
  match memory b with
  | [] => Text.no_history
  | _ => strip (fold_left history_step (enumerate (memory b) 1) "")
  end.

(** ** The domain gate and the search heuristic *)

Definition construction_keywords : list string :=
  [ "construction"; "building"; "concrete"; "steel"; "foundation"; "safety";
    "project management"; "engineering"; "structure"; "material"; "cost";
    "regulation"; "fire safety"; "osha"; "machinery"; "equipment"; "site";
    "contractor"; "cement"; "rebar"; "excavation"; "blueprint"; "architect";
    "electrical"; "plumbing"; "hvac"; "roofing"; "insulation"; "drywall" ].

(** [is_construction_related] *)
Definition is_construction_related (query : string) : bool :=
  let query_lower := lower query in
  any (fun keyword => str_in keyword query_lower) construction_keywords.

Definition search_keywords : list string :=
  [ "current"; "latest"; "recent"; "today"; "2024"; "2025"; "price"; "cost";
    "regulation"; "new"; "trend" ].

(** The local [needs_search] of [generate_response_with_crew]. *)
Definition needs_search (user_query : string) : bool :=
  any (fun keyword => str_in keyword (lower user_query)) search_keywords.

(** ** Pipelines *)

(** The two-task crew of the [if needs_search and self.research_agent]
    branch. *)
Definition research_crew (b : ConstructionChatbot) (ra : Agent)
    (user_query chat_history : string) : Crew :=
  let research_task :=
    mkTask (Text.research_head ++ user_query ++ Text.research_tail)
           Text.research_expected ra [] in
  let response_task :=
    mkTask (Text.synthesis_head ++ user_query ++ Text.synthesis_history
            ++ chat_history ++ Text.synthesis_tail)
           Text.synthesis_expected (construction_agent b) [research_task] in
  mkCrew [ra; construction_agent b] [research_task; response_task].

(** The one-task crew of the [else] branch. *)
Definition direct_crew (b : ConstructionChatbot)
    (user_query chat_history : string) : Crew :=
  let response_task :=
    mkTask (Text.advice_head ++ user_query ++ Text.advice_history
            ++ chat_history ++ Text.advice_tail)
           Text.advice_expected (construction_agent b) [] in
  mkCrew [construction_agent b] [response_task].

(** The crew that [generate_response_with_crew] builds. *)
Definition select_crew (b : ConstructionChatbot)
    (user_query chat_history : string) : Crew :=
  match needs_search user_query, research_agent b with
  | true, Some ra => research_crew b ra user_query chat_history
  | _, _ => direct_crew b user_query chat_history
  end.

(** The prompt of [generate_response_direct]. *)
Definition direct_prompt (user_query chat_history : string) : string :=
  Text.prompt_head ++ chat_history ++ Text.prompt_question ++ user_query
  ++ Text.prompt_tail.

Section Orchestrator.

Variable w : World.

(** [generate_response_direct] *)
Definition generate_response_direct (user_query : string) : M string :=
  if negb (is_construction_related user_query) then
    let response := Text.decline in
    add_to_memory user_query response ;;
    ret response
  else
    b <- get_self ;;
    let chat_history := get_chat_history b in
    let prompt := direct_prompt user_query chat_history in
    try_except
      (response_text <- call (Invoke prompt) (invoke w prompt) ;;
       add_to_memory user_query response_text ;;
       ret response_text)
      (fun e =>
         let fallback_response :=
           Text.difficulties ++ slice_to 100 e ++ "..." in
         add_to_memory user_query fallback_response ;;
         ret fallback_response).

(** [generate_response_with_crew] *)
Definition generate_response_with_crew (user_query : string) : M string :=
  if negb (is_construction_related user_query) then
    let response := Text.decline in
    add_to_memory user_query response ;;
    ret response
  else
    b <- get_self ;;
    let chat_history := get_chat_history b in
    try_except
      (let crew := select_crew b user_query chat_history in
       result <- call (Kickoff crew) (kickoff w crew) ;;
       let response := strip result in
       let response :=
         if is_empty response || (String.length response <? 10)%nat
         then Text.rephrase else response in
       add_to_memory user_query response ;;
       ret response)
      (fun e => generate_response_direct user_query).

(** [generate_response], the method the presentation layer calls. *)
Definition generate_response (user_query : string) : M string :=
  try_except (generate_response_with_crew user_query)
             (fun e => generate_response_direct user_query).

(** ** The presentation-layer handlers that touch the chatbot *)

Record ChatMessage : Type := mkMsg {
  msg_role : string;
  content : string
}.

(** The values [get_status_info] interpolates into its fixed markup. *)
Record StatusInfo : Type := mkStatus {
  search_online : bool;
  search_class : string;
  memory_count : nat
}.

Definition get_status_info : M StatusInfo :=
  chatbot <- get_self ;;
  let online := match search_tool chatbot with
                | Some _ => true
                | None => false
                end in
  let search_class := if online then "status-online" else "status-offline" in
  let memory_count := List.length (memory chatbot) in
  ret (mkStatus online search_class memory_count).

Definition update_memory_display : M StatusInfo := get_status_info.

(** U+1F6A8, which lies outside the modelled code points, stands here as
    its four UTF-8 bytes. *)
Definition siren : string :=
  String (ascii_of_nat 240) (String (ascii_of_nat 159)
    (String (ascii_of_nat 154) (String (ascii_of_nat 168) EmptyString))).

Definition error_head : string :=
  siren ++ " I apologize, but I encountered an error while processing your construction query. Please try again or rephrase your question.

Error: ".

(** [respond(message, history)]; [history] may be [None]. *)
Definition respond (message : string) (history : option (list ChatMessage))
  : M (option (list ChatMessage) * string * StatusInfo) :=
  if is_empty (strip message) then
    st <- update_memory_display ;;
    ret (history, "", st)
  else
    let history := match history with
                   | None => []
                   | Some h => h
                   end in
    let history := (history ++ [mkMsg "user" message])%list in
    history <-
      try_except
        (response <- generate_response message ;;
         ret (history ++ [mkMsg "assistant" response])%list)
        (fun e =>
           let error_response := error_head ++ slice_to 100 e ++ "..." in
           ret (history ++ [mkMsg "assistant" error_response])%list) ;;
    st <- update_memory_display ;;
    ret (Some history, "", st).

(** [clear_chat] *)
Definition clear_chat : M (list ChatMessage * StatusInfo) :=
  modify_memory (fun _ => []) ;;
  st <- update_memory_display ;;
  ret ([], st).

End Orchestrator.

(** ** Sequences of operations on one chatbot *)

(** The freshly constructed process: [chatbot = ConstructionChatbot()]. *)
Definition boot (o : built) : Sys := mkSys (init o) [].

(** What can happen to the chatbot between two observations. *)
Inductive Op : Type :=
  | OpGenerate (w : World) (user_query : string)
  | OpRespond (w : World) (message : string)
              (history : option (list ChatMessage))
  | OpAdd (user_query response : string)
  | OpClear.

Definition step (s : Sys) (op : Op) : Sys :=
  match op with
  | OpGenerate w q => snd (generate_response w q s)
  | OpRespond w message history => snd (respond w message history s)
  | OpAdd q r => snd (add_to_memory q r s)
  | OpClear => snd (clear_chat s)
  end.

Definition run (ops : list Op) (s : Sys) : Sys := fold_left step ops s.

(** The retrieval tool is called by the crew framework, on behalf of an
    agent that holds it; a crew can reach the tool when one of its agents,
    or the agent of one of its tasks, holds a tool. *)
Definition agent_has_tool (a : Agent) : bool :=
  match tools a with
  | [] => false
  | _ :: _ => true
  end.

Definition crew_has_tool (c : Crew) : bool :=
  existsb agent_has_tool (agents c)
  || existsb (fun t => agent_has_tool (task_agent t)) (tasks c).

Definition is_invoke (ev : Event) : bool :=
  match ev with
  | Invoke _ => true
  | Kickoff _ => false
  end.

(** ** Start-up of the module *)



(** [add_to_memory] called once for each Exchange of a list. *)
Definition adds (l : list Exchange) : list Op :=
  map (fun e => OpAdd (fst e) (snd e)) l.

(** The head of a block, up to the colon that precedes the response. *)
Definition block_head_text (i : nat) (q : string) : string :=
  "Message " ++ str_of_nat i ++ ":
User: " ++ q ++ "
Assistant:".

(** [generate_response] called once for each query of a list, each call
    with the collaborators of its turn. *)
Definition turns (l : list (World * string)) : list Op :=
  map (fun x => OpGenerate (fst x) (snd x)) l.

(** [sub] occurs in [s]. *)
Definition occurs (sub s : string) : Prop :=
  exists pre post, s = pre ++ sub ++ post.

(** ** Vocabulary of the properties *)

(** The window after [add_to_memory]: the head is dropped exactly when the
    window was already full. *)
Definition window_after (m : list Exchange) (q r : string) : list Exchange :=
  ((if (List.length m <? 5)%nat then m else tl m) ++ [(q, r)])%list.

(** The system after a turn that made the calls [evs] and recorded
    [(q, r)]. *)
Definition commit (s : Sys) (evs : list Event) (q r : string) : Sys :=
  mkSys (set_memory (window_after (memory (self s)) q r) (self s))
        (calls s ++ evs)%list.

(** The static apology of [generate_response_direct]. *)
Definition static_apology (e : string) : string :=
  Text.difficulties ++ slice_to 100 e ++ "...".

(** The length check of [generate_response_with_crew]. *)
Definition validated (response : string) : string :=
  if is_empty response || (String.length response <? 10)%nat
  then Text.rephrase else response.

(** The text and the collaborator calls of [generate_response], read off
    the run equations above. *)
Definition turn (w : World) (q : string) (s : Sys) : string * list Event :=
  if is_construction_related q then
    let history := get_chat_history (self s) in
    let crew := select_crew (self s) q history in
    let prompt := direct_prompt q history in
    match kickoff w crew with
    | Returns result => (validated (strip result), [Kickoff crew])
    | Raises _ =>
        match invoke w prompt with
        | Returns text => (text, [Kickoff crew; Invoke prompt])
        | Raises e => (static_apology e, [Kickoff crew; Invoke prompt])
        end
    end
  else (Text.decline, []).

(** What [get_status_info] reports in a given system. *)
Definition status_of (s : Sys) : StatusInfo :=
  let online := match search_tool (self s) with
                | Some _ => true
                | None => false
                end in
  mkStatus online (if online then "status-online" else "status-offline")
           (List.length (memory (self s))).

(** The agents are those [setup_crew] built from [search_tool]. *)
Definition configured (b : ConstructionChatbot) : Prop :=
  (construction_agent b, research_agent b) = setup_crew (search_tool b).

(** The trace shows no crew that could reach the tool. *)
Definition tool_unused (cs : list Event) : Prop :=
  forall c, In (Kickoff c) cs -> crew_has_tool c = false.

(** The invariant of a chatbot built by [init]. *)
Definition well_formed (s : Sys) : Prop :=
  configured (self s)
  /\ (search_tool (self s) = None -> tool_unused (calls s)).

Fixpoint all_space (s : string) : bool :=
  match s with
  | EmptyString => true
  | String c s' => is_space c && all_space s'
  end.

(** Following the spec's words: one numbered block per Exchange, holding the
    query and the response verbatim. *)
Definition block (x : nat * Exchange) : string :=
  "Message " ++ str_of_nat (fst x) ++ ":
User: " ++ fst (snd x) ++ "
Assistant: " ++ snd (snd x).

(** The separator that the loop of [get_chat_history] writes after a
    block. *)
Definition blank_line : string := "

".

(** Following the spec's words: the blocks of a window, numbered from 1 in
    insertion order. *)
Definition numbered_blocks (m : list Exchange) : string :=
  String.concat blank_line (map block (enumerate m 1)).

(** Each block followed by the separator, as the loop accumulates them. *)
Fixpoint terminated (l : list string) : string :=
  match l with
  | [] => ""
  | x :: l' => x ++ blank_line ++ terminated l'
  end.

(** [kw] occurs in [q] up to the case of the letters. *)
Definition contains_ci (kw q : string) : Prop :=
  exists pre s post, q = pre ++ s ++ post /\ lower s = kw.

(** ** Sample collaborators and states, used to instantiate the theorems *)

Module Sample.

(** The crew fails and the language model answers with a line of text. *)
Definition w_direct : World :=
  mkWorld (fun _ => Raises "timeout")
          (fun _ => Returns "Use rebar.
").

(** The crew fails and the language model answers with nothing. *)
Definition w_empty : World :=
  mkWorld (fun _ => Raises "timeout") (fun _ => Returns "").

(** The crew fails and the language model answers with two characters. *)
Definition w_short : World :=
  mkWorld (fun _ => Raises "timeout") (fun _ => Returns "OK").

(** Both collaborators fail. *)
Definition w_down : World :=
  mkWorld (fun _ => Raises "timeout") (fun _ => Raises "quota exceeded").

(** The crew answers. *)
Definition w_crew : World :=
  mkWorld (fun _ => Returns "  Grade 60 rebar is the usual choice.  ")
          (fun _ => Raises "unused").

Definition offline : Sys := boot (Failed "no key").
Definition online : Sys := boot (Built SerperDevTool).

(** The chatbot after one turn answered by the direct fallback. *)
Definition after_direct : ConstructionChatbot :=
  self (snd (generate_response w_direct "steel cost" online)).

End Sample.

(** ** Facts about strings *)

Lemma append_nil_r (s : string) : s ++ "" = s.
Proof. induction s as [|c s IH]; simpl; [reflexivity | now rewrite IH]. Qed.

Lemma append_assoc (a b c : string) : (a ++ b) ++ c = a ++ (b ++ c).
Proof. induction a as [|x a IH]; simpl; [reflexivity | now rewrite IH]. Qed.

Lemma lower_app (a b : string) : lower (a ++ b) = lower a ++ lower b.
Proof. induction a as [|x a IH]; simpl; [reflexivity | now rewrite IH]. Qed.

Lemma startswith_app (p t : string) : startswith (p ++ t) p = true.
Proof.
  induction p as [|x p IH]; simpl; [reflexivity |].
  now rewrite Ascii.eqb_refl, IH.
Qed.

Lemma str_in_here (sub t : string) : str_in sub (sub ++ t) = true.
Proof.
  pose proof (startswith_app sub t) as H.
  destruct (sub ++ t); cbn [str_in]; now rewrite H.
Qed.

Lemma str_in_later (sub pre t : string) :
  str_in sub t = true -> str_in sub (pre ++ t) = true.
Proof.
  intros H. induction pre as [|x pre IH]; [exact H |].
  cbn [append str_in]. rewrite IH. apply orb_true_r.
Qed.

(** [sub in s] holds as soon as [s] is [sub] between two other strings. *)
Lemma str_in_middle (sub pre post : string) :
  str_in sub (pre ++ sub ++ post) = true.
Proof. apply str_in_later, str_in_here. Qed.

Lemma startswith_split (p s : string) :
  startswith s p = true -> exists t, s = p ++ t.
Proof.
  revert s. induction p as [|x p IH]; intros s H.
  - now exists s.
  - destruct s as [|y s]; [discriminate |].
    cbn [startswith] in H. apply andb_true_iff in H as [Hxy Hs].
    apply Ascii.eqb_eq in Hxy. subst y.
    destruct (IH _ Hs) as [t ->]. now exists t.
Qed.

(** Conversely a successful [sub in s] exhibits the occurrence. *)
Lemma str_in_split (sub s : string) :
  str_in sub s = true -> exists pre post, s = pre ++ sub ++ post.
Proof.
  induction s as [|y s IH]; cbn [str_in]; intros H.
  - rewrite orb_false_r in H. destruct (startswith_split _ _ H) as [t Ht].
    exists "", t. exact Ht.
  - apply orb_true_iff in H as [H | H].
    + destruct (startswith_split _ _ H) as [t Ht]. exists "", t. exact Ht.
    + destruct (IH H) as (pre & post & ->). now exists (String y pre), post.
Qed.

(** ** What each method does to the system *)

Lemma add_to_memory_run (q r : string) (s : Sys) :
  add_to_memory q r s = (Ok tt, commit s [] q r).
Proof.
  destruct s as [[m st ca ra] cs].
  unfold add_to_memory, bind, modify_memory, get_self, ret, commit,
    window_after, set_memory; cbn [self calls memory search_tool
    construction_agent research_agent fst snd].
  rewrite List.length_app, app_nil_r; cbn [List.length].
  destruct (Nat.ltb_spec (List.length m) 5) as [Hlt | Hge];
    destruct (Nat.ltb_spec 5 (List.length m + 1)) as [Hpop | Hkeep];
    try lia.
  - reflexivity.
  - destruct m as [|e m]; [cbn [List.length] in Hge; lia | reflexivity].
Qed.

Lemma commit_commit_calls (s : Sys) (ev : Event) (evs : list Event)
    (q r : string) :
  commit (mkSys (self s) (calls s ++ [ev])%list) evs q r
  = commit s (ev :: evs) q r.
Proof. unfold commit; cbn [self calls]. now rewrite <- app_assoc. Qed.

Section Runs.

Variable w : World.

Lemma declined_direct_run (q : string) (s : Sys) :
  is_construction_related q = false ->
  generate_response_direct w q s = (Ok Text.decline, commit s [] q Text.decline).
Proof.
  intros H. unfold generate_response_direct. rewrite H. cbn [negb].
  unfold bind, ret. now rewrite add_to_memory_run.
Qed.

Lemma declined_crew_run (q : string) (s : Sys) :
  is_construction_related q = false ->
  generate_response_with_crew w q s
  = (Ok Text.decline, commit s [] q Text.decline).
Proof.
  intros H. unfold generate_response_with_crew. rewrite H. cbn [negb].
  unfold bind, ret. now rewrite add_to_memory_run.
Qed.

(** The fallback levels 2 and 3 for an in-domain query. *)
Lemma direct_run (q : string) (s : Sys) :
  is_construction_related q = true ->
  generate_response_direct w q s
  = let prompt := direct_prompt q (get_chat_history (self s)) in
    match invoke w prompt with
    | Returns text => (Ok text, commit s [Invoke prompt] q text)
    | Raises e =>
        (Ok (static_apology e), commit s [Invoke prompt] q (static_apology e))
    end.
Proof.
  intros H. unfold generate_response_direct. rewrite H. cbn [negb].
  unfold bind at 1. unfold get_self at 1. cbv zeta.
  unfold try_except, bind, call, ret.
  destruct (invoke w _) as [text | e].
  - now rewrite add_to_memory_run, commit_commit_calls.
  - cbn [self]. fold (static_apology e).
    now rewrite add_to_memory_run, commit_commit_calls.
Qed.

(** Level 1, then the levels below it, for an in-domain query. *)
Lemma crew_run (q : string) (s : Sys) :
  is_construction_related q = true ->
  generate_response_with_crew w q s
  = let history := get_chat_history (self s) in
    let crew := select_crew (self s) q history in
    let prompt := direct_prompt q history in
    match kickoff w crew with
    | Returns result =>
        let response := validated (strip result) in
        (Ok response, commit s [Kickoff crew] q response)
    | Raises _ =>
        match invoke w prompt with
        | Returns text =>
            (Ok text, commit s [Kickoff crew; Invoke prompt] q text)
        | Raises e =>
            (Ok (static_apology e),
             commit s [Kickoff crew; Invoke prompt] q (static_apology e))
        end
    end.
Proof.
  intros H. unfold generate_response_with_crew. rewrite H. cbn [negb].
  unfold bind at 1. unfold get_self at 1. cbv zeta.
  unfold try_except, bind at 1, call.
  destruct (kickoff w _) as [result | e0].
  - fold (validated (strip result)). unfold bind, ret.
    now rewrite add_to_memory_run, commit_commit_calls.
  - rewrite (direct_run _ _ H). cbv zeta. cbn [self].
    destruct (invoke w _); now rewrite commit_commit_calls.
Qed.

(** [generate_response] never reaches its own handler. *)
Lemma generate_response_run (q : string) (s : Sys) :
  generate_response w q s = generate_response_with_crew w q s.
Proof.
  unfold generate_response, try_except.
  destruct (is_construction_related q) eqn:H.
  - rewrite (crew_run _ _ H). cbv zeta.
    destruct (kickoff w _); [reflexivity |]. now destruct (invoke w _).
  - now rewrite (declined_crew_run _ _ H).
Qed.

End Runs.

(** ** The outcome of one turn *)

Lemma generate_response_turn (w : World) (q : string) (s : Sys) :
  generate_response w q s
  = (Ok (fst (turn w q s)), commit s (snd (turn w q s)) q (fst (turn w q s))).
Proof.
  rewrite generate_response_run. unfold turn.
  destruct (is_construction_related q) eqn:H.
  - rewrite (crew_run _ _ _ H). cbv zeta.
    destruct (kickoff w _); [reflexivity |]. now destruct (invoke w _).
  - now rewrite (declined_crew_run _ _ _ H).
Qed.

(** No exception leaves [generate_response]. *)
Lemma generate_response_never_raises (w : World) (q : string) (s : Sys) :
  exists r, fst (generate_response w q s) = Ok r.
Proof. rewrite generate_response_turn. now eexists. Qed.

Lemma window_after_length (m : list Exchange) (q r : string) :
  List.length m <= 5 -> List.length (window_after m q r) <= 5.
Proof.
  intros H. unfold window_after. rewrite List.length_app. cbn [List.length].
  destruct (Nat.ltb_spec (List.length m) 5) as [Hlt | Hge]; [lia |].
  destruct m as [|e m]; cbn [List.length tl] in *; lia.
Qed.

Lemma slice_to_length (n : nat) (s : string) :
  String.length (slice_to n s) <= n.
Proof.
  unfold slice_to. revert s.
  induction n as [|n IH]; intros [|c s]; cbn [substring String.length];
    try lia.
  specialize (IH s). lia.
Qed.

Lemma slice_to_prefix (n : nat) (s : string) :
  exists rest, s = slice_to n s ++ rest.
Proof.
  unfold slice_to. revert s.
  induction n as [|n IH]; intros [|c s]; cbn [substring].
  - now exists "".
  - now exists (String c s).
  - now exists "".
  - destruct (IH s) as [rest Hr]. exists rest. cbn [append]. now rewrite <- Hr.
Qed.

(** The crew path validates its text, whichever crew ran. *)
Lemma crew_text_validated (w : World) (q result : string) (s : Sys) :
  is_construction_related q = true ->
  kickoff w (select_crew (self s) q (get_chat_history (self s)))
  = Returns result ->
  fst (generate_response w q s) = Ok (validated (strip result)).
Proof.
  intros Hq Hk. rewrite generate_response_turn. unfold turn.
  now rewrite Hq, Hk.
Qed.

Lemma validated_not_empty (response : string) : validated response <> "".
Proof.
  unfold validated. destruct response as [|c t]; cbn [is_empty orb].
  - discriminate.
  - destruct (String.length (String c t) <? 10)%nat; discriminate.
Qed.

(** The only way to an empty text: the crew raised and the language model
    returned nothing. *)
Lemma empty_text_only_from_direct (w : World) (q : string) (s : Sys) :
  fst (generate_response w q s) = Ok "" ->
  is_construction_related q = true
  /\ (exists e, kickoff w (select_crew (self s) q (get_chat_history (self s)))
                = Raises e)
  /\ invoke w (direct_prompt q (get_chat_history (self s))) = Returns "".
Proof.
  rewrite generate_response_turn. unfold turn.
  destruct (is_construction_related q); [| discriminate]. cbv zeta.
  destruct (kickoff w _) as [result | e0]; cbn [fst].
  - intros H. inversion H as [H']. now apply validated_not_empty in H'.
  - destruct (invoke w _) as [text | e]; cbn [fst]; intros H.
    + inversion H. repeat split. now exists e0.
    + discriminate H.
Qed.

(** ** The decline path *)

(** C2. A query that the domain gate rejects gets exactly the decline
    literal; no collaborator is called, and the memory window receives the
    one Exchange (query, decline literal), after dropping its oldest entry
    if it was full. *)
Theorem out_of_domain_declined (w : World) (q : string) (s : Sys) :
  is_construction_related q = false ->
  fst (generate_response w q s) = Ok Text.decline
  /\ calls (snd (generate_response w q s)) = calls s
  /\ memory (self (snd (generate_response w q s)))
     = ((if (List.length (memory (self s)) <? 5)%nat
         then memory (self s) else tl (memory (self s)))
        ++ [(q, Text.decline)])%list.
Proof.
  intros H. rewrite generate_response_turn. unfold turn. rewrite H.
  cbn [fst snd commit calls self memory set_memory].
  repeat split. apply app_nil_r.
Qed.

Lemma out_of_domain_declined_witness :
  is_construction_related "What's the weather today?" = false
  /\ fst (generate_response Sample.w_crew "What's the weather today?"
            Sample.online) = Ok Text.decline.
Proof.
  split; [reflexivity |].
  apply (out_of_domain_declined Sample.w_crew "What's the weather today?"
           Sample.online).
  reflexivity.
Defined.

(** ** Returned text and recorded text *)

(** C9. Every call of [generate_response] completes with a text, and the
    newest Exchange of the memory window is then the query paired with that
    same text, whichever path produced it. *)
Theorem returned_text_is_recorded (w : World) (q : string) (s : Sys) :
  exists r older,
    fst (generate_response w q s) = Ok r
    /\ memory (self (snd (generate_response w q s)))
       = (older ++ [(q, r)])%list.
Proof.
  rewrite generate_response_turn.
  exists (fst (turn w q s)).
  exists (if (List.length (memory (self s)) <? 5)%nat
          then memory (self s) else tl (memory (self s))).
  split; reflexivity.
Qed.

(** ** The fallback chain *)

(** C6. When the crew raises on an in-domain query, the language model is
    called directly exactly once; when that call raises too, the text is the
    fixed apology followed by the first 100 characters at most of the error
    and by an ellipsis, and it is not empty. *)
Theorem fallback_chain (w : World) (q e0 : string) (s : Sys) :
  is_construction_related q = true ->
  kickoff w (select_crew (self s) q (get_chat_history (self s))) = Raises e0 ->
  let crew := select_crew (self s) q (get_chat_history (self s)) in
  let prompt := direct_prompt q (get_chat_history (self s)) in
  calls (snd (generate_response w q s))
  = (calls s ++ [Kickoff crew; Invoke prompt])%list
  /\ List.length (filter is_invoke [Kickoff crew; Invoke prompt]) = 1
  /\ forall e, invoke w prompt = Raises e ->
       fst (generate_response w q s)
       = Ok (Text.difficulties ++ slice_to 100 e ++ "...")
       /\ String.length (slice_to 100 e) <= 100
       /\ (exists rest, e = slice_to 100 e ++ rest)
       /\ Text.difficulties ++ slice_to 100 e ++ "..." <> "".
Proof.
  intros Hq Hk crew prompt. rewrite generate_response_turn. unfold turn.
  rewrite Hq. cbv zeta. rewrite Hk. subst crew prompt.
  split; [| split; [reflexivity |]].
  - now destruct (invoke w _).
  - intros e He. rewrite He. cbn [fst].
    repeat split.
    + apply slice_to_length.
    + apply slice_to_prefix.
    + discriminate.
Qed.

Lemma fallback_chain_witness :
  is_construction_related "steel cost" = true
  /\ kickoff Sample.w_down
       (select_crew (self Sample.online) "steel cost"
          (get_chat_history (self Sample.online)))
     = Raises "timeout"
  /\ fst (generate_response Sample.w_down "steel cost" Sample.online)
     = Ok (Text.difficulties ++ "quota exceeded" ++ "...").
Proof.
  split; [reflexivity | split; [reflexivity |]].
  pose proof (fallback_chain Sample.w_down "steel cost" "timeout"
                Sample.online eq_refl eq_refl) as H.
  cbv zeta in H. destruct H as (_ & _ & H).
  destruct (H "quota exceeded" eq_refl) as (H1 & _).
  exact H1.
Defined.

(** ** The presentation-layer handlers *)

Lemma update_memory_display_run (s : Sys) :
  update_memory_display s = (Ok (status_of s), s).
Proof. reflexivity. Qed.

Lemma respond_blank_run (w : World) (message : string)
    (history : option (list ChatMessage)) (s : Sys) :
  strip message = "" ->
  respond w message history s = (Ok (history, "", status_of s), s).
Proof. intros H. unfold respond. now rewrite H. Qed.

Lemma respond_run (w : World) (message : string)
    (history : option (list ChatMessage)) (s : Sys) :
  strip message <> "" ->
  snd (respond w message history s) = snd (generate_response w message s).
Proof.
  intros H. unfold respond.
  destruct (strip message) as [|c t]; [congruence |]. cbn [is_empty].
  unfold bind at 1, try_except, bind at 1.
  rewrite generate_response_turn. reflexivity.
Qed.

(** Every operation leaves the system alone, clears the window, or commits
    one Exchange. *)
Lemma step_cases (s : Sys) (op : Op) :
  step s op = s
  \/ step s op = mkSys (set_memory [] (self s)) (calls s)
  \/ (exists q r, step s op = commit s [] q r)
  \/ (exists w q,
        step s op = commit s (snd (turn w q s)) q (fst (turn w q s))).
Proof.
  destruct op as [w q | w message history | q r |]; cbn [step].
  - do 3 right. exists w, q. now rewrite generate_response_turn.
  - destruct (strip message) as [|c t] eqn:Hm.
    + left. now rewrite (respond_blank_run _ _ _ _ Hm).
    + do 3 right. exists w, message.
      rewrite respond_run by (rewrite Hm; discriminate).
      now rewrite generate_response_turn.
  - right; right; left. exists q, r. now rewrite add_to_memory_run.
  - right; left. reflexivity.
Qed.

(** ** The memory window *)

Lemma step_bounded (s : Sys) (op : Op) :
  List.length (memory (self s)) <= 5 ->
  List.length (memory (self (step s op))) <= 5.
Proof.
  intros H.
  destruct (step_cases s op) as [-> | [-> | [(q & r & ->) | (w & q & ->)]]];
    cbn [commit self memory set_memory List.length];
    auto using window_after_length with arith.
Qed.

Lemma run_bounded (ops : list Op) (s : Sys) :
  List.length (memory (self s)) <= 5 ->
  List.length (memory (self (run ops s))) <= 5.
Proof.
  revert s. induction ops as [|op ops IH]; intros s H; [exact H |].
  cbn [run fold_left]. apply IH, step_bounded, H.
Qed.

(** C3. Whatever operations run on a freshly constructed chatbot, its
    window holds at most 5 Exchanges afterwards; appending to a window of
    five drops exactly the oldest and keeps the order; so six appends to the
    empty window leave the 2nd to the 6th, in that order. *)
Theorem memory_window_bounded :
  (forall (o : built) (ops : list Op),
      List.length (memory (self (run ops (boot o)))) <= 5)
  /\ (forall (b : ConstructionChatbot) (cs : list Event)
             (e1 e2 e3 e4 e5 : Exchange) (q r : string),
        memory (self (snd (add_to_memory q r
                            (mkSys (set_memory [e1; e2; e3; e4; e5] b) cs))))
        = [e2; e3; e4; e5; (q, r)])
  /\ (forall (o : built) (q1 r1 q2 r2 q3 r3 q4 r4 q5 r5 q6 r6 : string),
        memory (self (run [OpAdd q1 r1; OpAdd q2 r2; OpAdd q3 r3;
                           OpAdd q4 r4; OpAdd q5 r5; OpAdd q6 r6] (boot o)))
        = [(q2, r2); (q3, r3); (q4, r4); (q5, r5); (q6, r6)]).
Proof.
  split; [| split].
  - intros o ops. apply run_bounded. destruct o; cbn; lia.
  - intros. now rewrite add_to_memory_run.
  - intros. cbn [run fold_left step]. now rewrite !add_to_memory_run.
Qed.

(** ** Routing without the retrieval tool *)

Lemma configured_offline (b : ConstructionChatbot) :
  configured b -> search_tool b = None ->
  research_agent b = None /\ tools (construction_agent b) = [].
Proof.
  unfold configured. intros H Hs. rewrite Hs in H. cbn in H.
  inversion H as [[Hc Hr]]. split; [reflexivity | now rewrite Hc].
Qed.

Lemma select_crew_offline (b : ConstructionChatbot) (q h : string) :
  configured b -> search_tool b = None ->
  select_crew b q h = direct_crew b q h
  /\ crew_has_tool (direct_crew b q h) = false.
Proof.
  intros Hc Hs. destruct (configured_offline b Hc Hs) as [Hr Ht]. split.
  - unfold select_crew. rewrite Hr. now destruct (needs_search q).
  - unfold crew_has_tool, direct_crew, agent_has_tool.
    cbn [agents tasks existsb task_agent]. now rewrite Ht.
Qed.

Lemma turn_tool_unused (w : World) (q : string) (s : Sys) :
  configured (self s) -> search_tool (self s) = None ->
  tool_unused (snd (turn w q s)).
Proof.
  intros Hc Hs c Hin. unfold turn in Hin.
  destruct (is_construction_related q); [| destruct Hin].
  cbv zeta in Hin.
  destruct (select_crew_offline (self s) q (get_chat_history (self s)) Hc Hs)
    as [Hsel Hfree].
  rewrite Hsel in Hin.
  destruct (kickoff w _); [| destruct (invoke w _)]; cbn [snd In] in Hin;
    repeat (destruct Hin as [Hin | Hin]; try discriminate; try contradiction);
    inversion Hin; subst; exact Hfree.
Qed.

Lemma step_config (s : Sys) (op : Op) :
  search_tool (self (step s op)) = search_tool (self s)
  /\ construction_agent (self (step s op)) = construction_agent (self s)
  /\ research_agent (self (step s op)) = research_agent (self s).
Proof.
  destruct (step_cases s op) as [-> | [-> | [(q & r & ->) | (w & q & ->)]]];
    repeat split.
Qed.

Lemma boot_well_formed (o : built) : well_formed (boot o).
Proof.
  split; [now destruct o |]. intros _ c [].
Qed.

Lemma step_well_formed (s : Sys) (op : Op) :
  well_formed s -> well_formed (step s op).
Proof.
  intros [Hc Hu].
  destruct (step_config s op) as (Hs & Ha & Hr).
  split; [unfold configured; now rewrite Hs, Ha, Hr |].
  rewrite Hs. intros Hoff. specialize (Hu Hoff).
  destruct (step_cases s op) as [-> | [-> | [(q & r & ->) | (w & q & ->)]]];
    cbn [commit calls]; try rewrite app_nil_r; try exact Hu.
  intros c Hin. apply in_app_or in Hin as [Hin | Hin]; [now apply Hu |].
  now apply (turn_tool_unused w q s Hc Hoff).
Qed.

Lemma run_well_formed (ops : list Op) (s : Sys) :
  well_formed s -> well_formed (run ops s).
Proof.
  revert s. induction ops as [|op ops IH]; intros s H; [exact H |].
  cbn [run fold_left]. apply IH, step_well_formed, H.
Qed.

(** C4. On a chatbot whose retrieval tool is missing, every in-domain
    query, whatever search keywords it contains, starts the one-task crew of
    the construction agent alone; that agent holds no tool, and no crew in
    the whole trace could reach the retrieval tool. *)
Theorem offline_routes_direct (o : built) (ops : list Op) (w : World)
    (q : string) :
  let s := run ops (boot o) in
  let crew := direct_crew (self s) q (get_chat_history (self s)) in
  search_tool (self s) = None ->
  is_construction_related q = true ->
  (exists rest,
      calls (snd (generate_response w q s))
      = (calls s ++ Kickoff crew :: rest)%list
      /\ forallb is_invoke rest = true)
  /\ List.length (tasks crew) = 1
  /\ agents crew = [construction_agent (self s)]
  /\ tools (construction_agent (self s)) = []
  /\ tool_unused (calls (snd (generate_response w q s))).
Proof.
  intros s crew Hoff Hq.
  destruct (run_well_formed ops (boot o) (boot_well_formed o)) as [Hc Hu].
  fold s in Hc, Hu.
  destruct (select_crew_offline (self s) q (get_chat_history (self s)) Hc Hoff)
    as [Hsel _].
  destruct (configured_offline (self s) Hc Hoff) as [_ Ht].
  repeat split; try assumption.
  - rewrite generate_response_turn. unfold turn. rewrite Hq. cbv zeta.
    rewrite Hsel. fold crew.
    destruct (kickoff w crew); [| destruct (invoke w _)];
      cbn [snd fst commit calls]; eexists; split; reflexivity.
  - assert (Hw : well_formed (step s (OpGenerate w q)))
      by (apply step_well_formed; split; assumption).
    destruct Hw as [_ Hu']. apply Hu'.
    destruct (step_config s (OpGenerate w q)) as (Hs & _). now rewrite Hs.
Qed.

(** With the tool at hand the same query goes to the research crew, which
    can reach it. *)
Lemma online_routes_research :
  select_crew (self Sample.online)
    "What is the current price of steel in 2024?"
    (get_chat_history (self Sample.online))
  = research_crew (self Sample.online)
      (mkAgent Text.research_role Text.research_goal Text.research_backstory
               [SerperDevTool] false 2 30)
      "What is the current price of steel in 2024?"
      (get_chat_history (self Sample.online))
  /\ crew_has_tool
       (select_crew (self Sample.online)
          "What is the current price of steel in 2024?"
          (get_chat_history (self Sample.online))) = true.
Proof. split; reflexivity. Qed.

Lemma offline_routes_direct_witness :
  search_tool (self Sample.offline) = None
  /\ is_construction_related "What is the current price of steel in 2024?"
     = true
  /\ needs_search "What is the current price of steel in 2024?" = true
  /\ tool_unused
       (calls (snd (generate_response Sample.w_crew
                      "What is the current price of steel in 2024?"
                      Sample.offline))).
Proof.
  repeat split.
  apply (offline_routes_direct (Failed "no key") [] Sample.w_crew
           "What is the current price of steel in 2024?");
    reflexivity.
Defined.

(** ** Whitespace *)

Lemma rstrip_all_space (t : string) : all_space t = true -> rstrip t = "".
Proof.
  induction t as [|c t IH]; cbn [all_space rstrip]; [reflexivity |].
  intros H. apply andb_true_iff in H as [Hc Ht]. now rewrite (IH Ht), Hc.
Qed.

Lemma rstrip_nil_all_space (t : string) : rstrip t = "" -> all_space t = true.
Proof.
  induction t as [|c t IH]; cbn [all_space rstrip]; [reflexivity |].
  destruct (rstrip t); [| discriminate].
  destruct (is_space c); [intros _; now apply IH | discriminate].
Qed.

Lemma lstrip_all_space (q : string) :
  all_space (lstrip q) = true -> all_space q = true.
Proof.
  induction q as [|c q IH]; cbn [lstrip all_space]; [reflexivity |].
  destruct (is_space c) eqn:Hc; [exact IH |].
  cbn [all_space]. now rewrite Hc.
Qed.

(** A string that [strip] empties consists of whitespace only. *)
Lemma strip_nil_all_space (q : string) : strip q = "" -> all_space q = true.
Proof. intros H. now apply lstrip_all_space, rstrip_nil_all_space. Qed.

Lemma rstrip_app_space (a t : string) :
  all_space t = true -> rstrip (a ++ t) = rstrip a.
Proof.
  intros Ht. induction a as [|c a IH]; cbn [append rstrip].
  - now apply rstrip_all_space.
  - now rewrite IH.
Qed.

Lemma rstrip_app_kept (a b : string) :
  rstrip b <> "" -> rstrip (a ++ b) = a ++ rstrip b.
Proof.
  intros Hb. induction a as [|c a IH]; cbn [append rstrip]; [reflexivity |].
  rewrite IH. destruct (a ++ rstrip b) eqn:E; [| reflexivity].
  destruct a; cbn [append] in E; [contradiction | discriminate].
Qed.

Lemma rstrip_head_kept (c : ascii) (s : string) :
  is_space c = false -> rstrip (String c s) <> "".
Proof.
  intros Hc. cbn [rstrip]. destruct (rstrip s); [rewrite Hc |]; discriminate.
Qed.

Lemma lower_char_space (c : ascii) : is_space c = true -> lower_char c = c.
Proof.
  destruct c as [[] [] [] [] [] [] [] []]; intros H;
    solve [reflexivity | discriminate H].
Qed.

Lemma lower_all_space (q : string) : all_space q = true -> lower q = q.
Proof.
  induction q as [|c q IH]; cbn [all_space lower]; [reflexivity |].
  intros H. apply andb_true_iff in H as [Hc Hq].
  now rewrite (lower_char_space c Hc), (IH Hq).
Qed.

Lemma str_in_all_space (c : ascii) (k s : string) :
  all_space s = true -> str_in (String c k) s = true -> is_space c = true.
Proof.
  induction s as [|y s IH]; cbn [all_space str_in startswith].
  - discriminate.
  - intros H Hin. apply andb_true_iff in H as [Hy Hs].
    apply orb_true_iff in Hin as [Hin | Hin]; [| now apply IH].
    apply andb_true_iff in Hin as [Hcy _].
    apply Ascii.eqb_eq in Hcy. now subst y.
Qed.

(** A whitespace-only query never passes the domain gate. *)
Lemma blank_query_out_of_domain (q : string) :
  strip q = "" -> is_construction_related q = false.
Proof.
  intros H. apply strip_nil_all_space in H.
  unfold is_construction_related, any. rewrite (lower_all_space q H).
  apply not_true_is_false. intros Hex.
  apply existsb_exists in Hex as (k & Hk & Hin).
  assert (Hletters :
    forallb (fun k => match k with
                      | EmptyString => false
                      | String c _ => negb (is_space c)
                      end) construction_keywords = true) by reflexivity.
  rewrite forallb_forall in Hletters. specialize (Hletters k Hk).
  destruct k as [|c k]; [discriminate |].
  rewrite (str_in_all_space c k q H Hin) in Hletters. discriminate.
Qed.

(** ** Blank messages *)

(** C8, as the code has it. A blank or whitespace-only message stops in the
    [respond] handler, before [generate_response] is called: the handler
    returns the history it was given and an empty text box, and neither the
    memory window nor the call trace changes. *)
Theorem blank_message_ignored (w : World) (message : string)
    (history : option (list ChatMessage)) (s : Sys) :
  strip message = "" ->
  fst (respond w message history s) = Ok (history, "", status_of s)
  /\ memory (self (snd (respond w message history s))) = memory (self s)
  /\ calls (snd (respond w message history s)) = calls s.
Proof.
  intros H. rewrite (respond_blank_run w message history s H).
  repeat split.
Qed.

Lemma blank_message_ignored_witness :
  strip "  " = ""
  /\ memory (self (snd (respond Sample.w_crew "  " None Sample.online)))
     = memory (self Sample.online).
Proof.
  split; [reflexivity |].
  apply (blank_message_ignored Sample.w_crew "  " None Sample.online).
  reflexivity.
Defined.

(** What [generate_response] itself does with such a query: no call, the
    decline literal, and one more Exchange. *)
Lemma blank_query_declined (w : World) (q : string) (s : Sys) :
  strip q = "" ->
  generate_response w q s = (Ok Text.decline, commit s [] q Text.decline).
Proof.
  intros H. rewrite generate_response_turn. unfold turn.
  now rewrite (blank_query_out_of_domain q H).
Qed.

(** C8 fails for [generate_response] itself: given the empty query it
    returns the decline literal, which is not empty, and records the
    Exchange, so the window is no longer what it was. *)
Lemma blank_query_is_recorded :
  strip "" = ""
  /\ fst (generate_response Sample.w_crew "" Sample.online) = Ok Text.decline
  /\ Text.decline <> ""
  /\ memory (self (snd (generate_response Sample.w_crew "" Sample.online)))
     = [("", Text.decline)]
  /\ memory (self (snd (generate_response Sample.w_crew "" Sample.online)))
     <> memory (self Sample.online).
Proof. repeat split; discriminate. Qed.

(** ** The formatted history *)

Lemma history_step_block (history : string) (x : nat * Exchange) :
  history_step history x = history ++ block x ++ blank_line.
Proof.
  destruct x as [i [user_msg bot_msg]]. unfold history_step, block.
  cbn [fst snd]. now rewrite !append_assoc.
Qed.

Lemma fold_history (l : list (nat * Exchange)) (acc : string) :
  fold_left history_step l acc = acc ++ terminated (map block l).
Proof.
  revert acc. induction l as [|x l IH]; intros acc; cbn [fold_left map terminated].
  - now rewrite append_nil_r.
  - now rewrite IH, history_step_block, !append_assoc.
Qed.

Lemma concat_snoc (l : list string) (x : string) :
  String.concat blank_line (l ++ [x]) = terminated l ++ x.
Proof.
  induction l as [|y l IH]; [reflexivity |].
  cbn [app terminated]. rewrite !append_assoc, <- IH.
  destruct (l ++ [x])%list eqn:E; [now destruct l | reflexivity].
Qed.

Lemma terminated_snoc (l : list string) (x : string) :
  terminated (l ++ [x]) = terminated l ++ x ++ blank_line.
Proof.
  induction l as [|y l IH]; cbn [app terminated].
  - now rewrite append_nil_r.
  - now rewrite IH, !append_assoc.
Qed.

Lemma enumerate_snoc {A} (l : list A) (e : A) (start : nat) :
  enumerate (l ++ [e]) start
  = (enumerate l start ++ [(start + List.length l, e)])%list.
Proof.
  unfold enumerate. revert start.
  induction l as [|x l IH]; intros start; cbn [app List.length seq combine].
  - now rewrite Nat.add_0_r.
  - now rewrite IH, Nat.add_succ_r.
Qed.

(** A block starts with a letter, so [lstrip] leaves the history alone. *)
Lemma block_head (x : nat * Exchange) :
  exists rest, block x = String "M" rest.
Proof. unfold block. cbn [append]. now eexists. Qed.

Lemma block_rstrip_kept (x : nat * Exchange) : rstrip (block x) <> "".
Proof.
  destruct (block_head x) as [rest ->]. now apply rstrip_head_kept.
Qed.

Lemma lstrip_terminated (l : list (nat * Exchange)) (x : nat * Exchange) :
  lstrip (terminated (map block l) ++ block x ++ blank_line)
  = terminated (map block l) ++ block x ++ blank_line.
Proof.
  destruct l as [|y l]; cbn [map terminated].
  - destruct (block_head x) as [rest ->]. reflexivity.
  - destruct (block_head y) as [rest ->]. reflexivity.
Qed.

(** The history of a non-empty window, as the code computes it. *)
Lemma get_chat_history_snoc (b : ConstructionChatbot) (m : list Exchange)
    (e : Exchange) :
  memory b = (m ++ [e])%list ->
  get_chat_history b
  = terminated (map block (enumerate m 1))
    ++ rstrip (block (S (List.length m), e)).
Proof.
  intros Hm. unfold get_chat_history. rewrite Hm.
  destruct (m ++ [e])%list eqn:E; [now destruct m |]. rewrite <- E.
  rewrite fold_history, enumerate_snoc, map_app. cbn [map append plus].
  rewrite terminated_snoc. unfold strip. rewrite lstrip_terminated.
  rewrite <- append_assoc.
  rewrite rstrip_app_space by reflexivity.
  apply rstrip_app_kept, block_rstrip_kept.
Qed.

Lemma block_rstrip (i : nat) (q r : string) :
  rstrip r <> "" ->
  rstrip (block (i, (q, r)))
  = "Message " ++ str_of_nat i ++ ":
User: " ++ q ++ "
Assistant: " ++ rstrip r.
Proof.
  intros Hr. unfold block. cbn [fst snd].
  rewrite <- !append_assoc. rewrite (rstrip_app_kept _ r Hr).
  now rewrite !append_assoc.
Qed.

(** C7, as the code has it. The history of an empty window is the literal
    "No previous conversation."; the history of a window of k Exchanges is
    its k blocks, numbered 1 to k in insertion order and separated by blank
    lines, each holding its query and response verbatim, except that the
    last block ends where its trailing whitespace begins: the last response
    appears without its trailing whitespace, and verbatim when it has none
    and is not empty. *)
Theorem chat_history_numbered (b : ConstructionChatbot) :
  (memory b = [] -> get_chat_history b = "No previous conversation.")
  /\ (forall (m : list Exchange) (q r : string),
        memory b = (m ++ [(q, r)])%list ->
        get_chat_history b
        = String.concat blank_line
            (map block (enumerate m 1)
             ++ [rstrip (block (S (List.length m), (q, r)))])%list
        /\ (rstrip r <> "" ->
            rstrip (block (S (List.length m), (q, r)))
            = "Message " ++ str_of_nat (S (List.length m)) ++ ":
User: " ++ q ++ "
Assistant: " ++ rstrip r)
        /\ (r <> "" -> rstrip r = r ->
            get_chat_history b = numbered_blocks (memory b))).
Proof.
  split.
  - intros Hm. unfold get_chat_history. now rewrite Hm.
  - intros m q r Hm.
    pose proof (get_chat_history_snoc b m (q, r) Hm) as Hh.
    split; [| split].
    + now rewrite concat_snoc.
    + apply block_rstrip.
    + intros Hne Hr. rewrite Hh, Hm. unfold numbered_blocks.
      rewrite enumerate_snoc, map_app. cbn [map plus].
      rewrite concat_snoc. f_equal.
      assert (Hk : rstrip r <> "") by (now rewrite Hr).
      rewrite (block_rstrip _ q r Hk), Hr. reflexivity.
Qed.

Lemma chat_history_numbered_witness :
  memory (set_memory [("steel", "Use rebar.")] (init (Failed "no key")))
  = ([] ++ [("steel", "Use rebar.")])%list
  /\ get_chat_history
       (set_memory [("steel", "Use rebar.")] (init (Failed "no key")))
     = "Message 1:
User: steel
Assistant: Use rebar.".
Proof.
  split; [reflexivity |].
  destruct (chat_history_numbered
              (set_memory [("steel", "Use rebar.")] (init (Failed "no key"))))
    as [_ H].
  destruct (H [] "steel" "Use rebar." eq_refl) as (_ & _ & H3).
  rewrite H3; [reflexivity | discriminate | reflexivity].
Defined.

(** C7 fails as stated once a stored response ends in whitespace, which the
    direct fallback allows: after the turn below the window holds the
    response with its final newline, and the history neither equals the
    numbered blocks nor contains that response. *)
Lemma history_drops_trailing_whitespace :
  memory Sample.after_direct = [("steel cost", "Use rebar.
")]
  /\ get_chat_history Sample.after_direct
     <> numbered_blocks (memory Sample.after_direct)
  /\ str_in "Use rebar.
" (get_chat_history Sample.after_direct) = false.
Proof.
  split; [reflexivity | split; [| reflexivity]].
  intros H. vm_compute in H. discriminate H.
Qed.

(** ** The two keyword lists *)

Lemma contains_ci_lower (kw q : string) :
  contains_ci kw q -> str_in kw (lower q) = true.
Proof.
  intros (pre & s & post & -> & <-).
  rewrite !lower_app. apply str_in_middle.
Qed.

Lemma any_keyword (kw : string) (l : list string) (q : string) :
  In kw l -> str_in kw (lower q) = true ->
  any (fun keyword => str_in keyword (lower q)) l = true.
Proof.
  intros Hin Hq. unfold any. apply existsb_exists. now exists kw.
Qed.

(** C10. The keywords common to the domain gate and to the search
    heuristic are exactly 'cost' and 'regulation'; a query that contains
    either, in any case of the letters, passes the gate and asks for
    retrieval at once: the turn is not declined but starts a crew, the
    research crew whenever a research agent exists. *)
Theorem shared_keywords :
  filter (fun k => existsb (String.eqb k) search_keywords)
         construction_keywords
  = ["cost"; "regulation"]
  /\ forall (w : World) (q : string) (s : Sys),
       contains_ci "cost" q \/ contains_ci "regulation" q ->
       let history := get_chat_history (self s) in
       is_construction_related q = true
       /\ needs_search q = true
       /\ (exists rest,
             calls (snd (generate_response w q s))
             = (calls s ++ Kickoff (select_crew (self s) q history) :: rest)%list)
       /\ (forall ra, research_agent (self s) = Some ra ->
             select_crew (self s) q history
             = research_crew (self s) ra q history).
Proof.
  split; [reflexivity |].
  intros w q s H history.
  assert (Hgate : is_construction_related q = true).
  { destruct H as [H | H]; apply contains_ci_lower in H;
      unfold is_construction_related; cbv zeta;
      eapply any_keyword; try exact H; cbn; tauto. }
  assert (Hsearch : needs_search q = true).
  { destruct H as [H | H]; apply contains_ci_lower in H;
      unfold needs_search; eapply any_keyword; try exact H; cbn; tauto. }
  repeat split; try assumption.
  - rewrite generate_response_turn. unfold turn. rewrite Hgate. cbv zeta.
    fold history.
    destruct (kickoff w _); [| destruct (invoke w _)];
      cbn [snd commit calls]; now eexists.
  - intros ra Hra. unfold select_crew. now rewrite Hsearch, Hra.
Qed.

Lemma shared_keywords_witness :
  contains_ci "cost" "Steel COST per ton?"
  /\ is_construction_related "Steel COST per ton?" = true
  /\ needs_search "Steel COST per ton?" = true.
Proof.
  assert (H : contains_ci "cost" "Steel COST per ton?")
    by (exists "Steel ", "COST", " per ton?"; split; reflexivity).
  split; [exact H |].
  destruct shared_keywords as [_ Hq].
  destruct (Hq Sample.w_crew "Steel COST per ton?" Sample.online (or_introl H))
    as (Hgate & Hsearch & _).
  split; assumption.
Defined.

(** ** Where the fallback text escapes the length check *)

(** C1, at the input where it fails. The crew raises, the language model
    returns the empty text, and [generate_response] returns that empty text
    for an in-domain query: no exception, but no text either. *)
Theorem direct_fallback_returns_empty :
  is_construction_related "steel cost" = true
  /\ fst (generate_response Sample.w_empty "steel cost" Sample.online) = Ok ""
  /\ memory (self (snd (generate_response Sample.w_empty "steel cost"
                          Sample.online)))
     = [("steel cost", "")].
Proof. repeat split. Qed.

(** C5, at the input where it fails. The crew raises and the language model
    returns two characters: the direct fallback returns and records them as
    they are, where the crew path would have put the rephrase request. *)
Theorem direct_fallback_not_validated :
  fst (generate_response Sample.w_short "steel cost" Sample.online) = Ok "OK"
  /\ memory (self (snd (generate_response Sample.w_short "steel cost"
                          Sample.online)))
     = [("steel cost", "OK")]
  /\ validated "OK" = Text.rephrase
  /\ Text.rephrase <> "OK".
Proof. repeat split. discriminate. Qed.

(** * Further properties of the code *)

(** ** More facts about strings *)

Lemma length_append (a b : string) :
  String.length (a ++ b) = String.length a + String.length b.
Proof. induction a as [|c a IH]; cbn; [reflexivity | now rewrite IH]. Qed.

Lemma occurs_str_in (sub s : string) : occurs sub s <-> str_in sub s = true.
Proof.
  split.
  - intros (pre & post & ->). apply str_in_middle.
  - apply str_in_split.
Qed.

Lemma occurs_here (sub pre post : string) : occurs sub (pre ++ sub ++ post).
Proof. now exists pre, post. Qed.

Lemma occurs_inside (sub s pre post : string) :
  occurs sub s -> occurs sub (pre ++ s ++ post).
Proof.
  intros (a & b & ->). exists (pre ++ a), (b ++ post).
  now rewrite !append_assoc.
Qed.

Lemma lower_char_idem (c : ascii) : lower_char (lower_char c) = lower_char c.
Proof. destruct c as [[] [] [] [] [] [] [] []]; reflexivity. Qed.

Lemma lower_idem (s : string) : lower (lower s) = lower s.
Proof.
  induction s as [|c s IH]; cbn [lower]; [reflexivity |].
  now rewrite lower_char_idem, IH.
Qed.

Lemma lstrip_cases (s : string) :
  lstrip s = "" \/ exists c t, lstrip s = String c t /\ is_space c = false.
Proof.
  induction s as [|c s IH]; cbn [lstrip]; [now left |].
  destruct (is_space c) eqn:Hc; [exact IH |].
  right. now exists c, s.
Qed.

Lemma rstrip_keeps_head (c : ascii) (t : string) :
  is_space c = false -> exists t', rstrip (String c t) = String c t'.
Proof.
  intros Hc. cbn [rstrip]. destruct (rstrip t) as [|d r].
  - rewrite Hc. now exists "".
  - now exists (String d r).
Qed.

Lemma rstrip_idem (s : string) : rstrip (rstrip s) = rstrip s.
Proof.
  induction s as [|c s IH]; [reflexivity |].
  cbn [rstrip]. destruct (rstrip s) as [|d r] eqn:E.
  - destruct (is_space c) eqn:Hc; [reflexivity |].
    cbn [rstrip]. now rewrite Hc.
  - cbn [rstrip] in *. now rewrite IH.
Qed.

(** A stripped string has nothing left to strip. *)
Lemma strip_idem (s : string) : strip (strip s) = strip s.
Proof.
  unfold strip. destruct (lstrip_cases s) as [-> | (c & t & -> & Hc)];
    [reflexivity |].
  destruct (rstrip_keeps_head c t Hc) as [t' Ht'].
  rewrite Ht' at 1. cbn [lstrip]. rewrite Hc, <- Ht'. apply rstrip_idem.
Qed.

Lemma slice_to_short (n : nat) (s : string) :
  String.length s <= n -> slice_to n s = s.
Proof.
  unfold slice_to. revert s.
  induction n as [|n IH]; intros [|c s]; cbn [substring String.length];
    intros H; try reflexivity; [lia |].
  now rewrite IH by lia.
Qed.

(** ** The window as the most recent Exchanges *)

Lemma run_adds_cons (e : Exchange) (l : list Exchange) (s : Sys) :
  run (adds (e :: l)) s = run (adds l) (commit s [] (fst e) (snd e)).
Proof.
  unfold run, adds. cbn [map fold_left step]. now rewrite add_to_memory_run.
Qed.

Lemma window_after_recent (m l : list Exchange) (q r : string) :
  List.length m <= 5 ->
  skipn (List.length (window_after m q r ++ l) - 5) (window_after m q r ++ l)
  = skipn (List.length (m ++ (q, r) :: l) - 5) (m ++ (q, r) :: l).
Proof.
  intros H. unfold window_after.
  destruct (Nat.ltb_spec (List.length m) 5) as [Hlt | Hge].
  - now rewrite <- app_assoc.
  - destruct m as [|x m]; [cbn [List.length] in Hge; lia |].
    cbn [tl]. rewrite <- !app_assoc. cbn [app].
    rewrite !List.length_app. cbn [List.length] in *.
    rewrite List.length_app. cbn [List.length].
    replace (List.length m + S (List.length l) - 5) with (List.length l) by lia.
    replace (S (List.length m + S (List.length l)) - 5)
      with (S (List.length l)) by lia.
    reflexivity.
Qed.

(** X1. Successive calls of [add_to_memory] on a window of at most five
    Exchanges leave the five most recent of all Exchanges, old and new, in
    their order (all of them while there are at most five). *)
Theorem window_keeps_most_recent (l : list Exchange) (s : Sys) :
  List.length (memory (self s)) <= 5 ->
  memory (self (run (adds l) s))
  = skipn (List.length (memory (self s) ++ l) - 5) (memory (self s) ++ l).
Proof.
  revert s. induction l as [|[q r] l IH]; intros s H.
  - cbn [adds map run fold_left]. rewrite app_nil_r.
    replace (List.length (memory (self s)) - 5) with 0 by lia. reflexivity.
  - rewrite run_adds_cons. cbn [fst snd].
    rewrite IH by (cbn [commit self memory set_memory];
                   now apply window_after_length).
    cbn [commit self memory set_memory].
    now apply window_after_recent.
Qed.

Lemma window_keeps_most_recent_witness :
  List.length (memory (self Sample.online)) <= 5
  /\ memory (self (run (adds [("q1", "r1"); ("q2", "r2"); ("q3", "r3");
                              ("q4", "r4"); ("q5", "r5"); ("q6", "r6");
                              ("q7", "r7")]) Sample.online))
     = [("q3", "r3"); ("q4", "r4"); ("q5", "r5"); ("q6", "r6"); ("q7", "r7")].
Proof.
  split; [cbn; lia |].
  rewrite (window_keeps_most_recent
             [("q1", "r1"); ("q2", "r2"); ("q3", "r3"); ("q4", "r4");
              ("q5", "r5"); ("q6", "r6"); ("q7", "r7")] Sample.online);
    [reflexivity | cbn; lia].
Defined.

(** ** One turn *)

(** X2. Every call of [generate_response] returns a text and records
    exactly one Exchange, the query with that text, behind the old window
    with at most its oldest entry removed; the tool and the two agents are
    left as they were. *)
Theorem turn_records_once (w : World) (q : string) (s : Sys) :
  exists r,
    fst (generate_response w q s) = Ok r
    /\ memory (self (snd (generate_response w q s)))
       = ((if (List.length (memory (self s)) <? 5)%nat
           then memory (self s) else tl (memory (self s)))
          ++ [(q, r)])%list
    /\ search_tool (self (snd (generate_response w q s)))
       = search_tool (self s)
    /\ construction_agent (self (snd (generate_response w q s)))
       = construction_agent (self s)
    /\ research_agent (self (snd (generate_response w q s)))
       = research_agent (self s).
Proof.
  rewrite generate_response_turn. exists (fst (turn w q s)).
  repeat split.
Qed.

(** X3. A turn calls the crew at most once and then the language model at
    most once: nothing for a query that the gate rejects, the crew alone
    when it returns, the crew and then the language model when the crew
    raises. *)
Theorem calls_of_a_turn (w : World) (q : string) (s : Sys) :
  let history := get_chat_history (self s) in
  let crew := select_crew (self s) q history in
  let prompt := direct_prompt q history in
  calls (snd (generate_response w q s))
  = (calls s
     ++ (if is_construction_related q then
           match kickoff w crew with
           | Returns _ => [Kickoff crew]
           | Raises _ => [Kickoff crew; Invoke prompt]
           end
         else []))%list.
Proof.
  cbv zeta. rewrite generate_response_turn. unfold turn.
  destruct (is_construction_related q); [| reflexivity]. cbv zeta.
  destruct (kickoff w _); [reflexivity |]. now destruct (invoke w _).
Qed.

(** ** The texts of the three levels *)

(** X4. A text that the crew returns reaches the caller stripped and at
    least 10 characters long: it is the stripped result when that has 10
    characters or more, and the rephrase request otherwise. *)
Theorem crew_text_clean (w : World) (q result : string) (s : Sys) :
  is_construction_related q = true ->
  kickoff w (select_crew (self s) q (get_chat_history (self s)))
  = Returns result ->
  exists r,
    fst (generate_response w q s) = Ok r
    /\ 10 <= String.length r
    /\ strip r = r
    /\ (10 <= String.length (strip result) -> r = strip result)
    /\ (String.length (strip result) < 10 -> r = Text.rephrase).
Proof.
  intros Hq Hk. rewrite generate_response_turn. unfold turn.
  rewrite Hq. cbv zeta. rewrite Hk. cbn [fst].
  exists (validated (strip result)). split; [reflexivity |].
  unfold validated.
  destruct (strip result) as [|c t] eqn:E; cbn [is_empty orb].
  - split; [cbn; lia |]. split; [reflexivity |].
    split; [cbn [String.length]; lia | reflexivity].
  - destruct (Nat.ltb_spec (String.length (String c t)) 10) as [Hlt | Hge].
    + split; [cbn; lia |]. split; [reflexivity |].
      split; [lia | reflexivity].
    + split; [exact Hge |]. split; [rewrite <- E; apply strip_idem |].
      split; [reflexivity | lia].
Qed.

Lemma crew_text_clean_witness :
  is_construction_related "steel cost" = true
  /\ fst (generate_response Sample.w_crew "steel cost" Sample.online)
     = Ok "Grade 60 rebar is the usual choice.".
Proof.
  split; [reflexivity |].
  destruct (crew_text_clean Sample.w_crew "steel cost"
              "  Grade 60 rebar is the usual choice.  " Sample.online
              eq_refl eq_refl) as (r & Hr & _ & _ & Hlong & _).
  rewrite Hr. f_equal. apply Hlong. vm_compute. lia.
Defined.

(** X5. When the crew and the language model both raise, the text is the
    fixed apology around the error message: the whole message when it has
    at most 100 characters, between 240 and 340 characters in all, and so
    never short enough to fail the length check of the crew path. *)
Theorem apology_bounds (w : World) (q e0 e : string) (s : Sys) :
  is_construction_related q = true ->
  kickoff w (select_crew (self s) q (get_chat_history (self s)))
  = Raises e0 ->
  invoke w (direct_prompt q (get_chat_history (self s))) = Raises e ->
  exists r,
    fst (generate_response w q s) = Ok r
    /\ 240 <= String.length r <= 340
    /\ validated r = r
    /\ (String.length e <= 100 -> r = Text.difficulties ++ e ++ "...").
Proof.
  intros Hq Hk Hi. rewrite generate_response_turn. unfold turn.
  rewrite Hq. cbv zeta. rewrite Hk, Hi. cbn [fst].
  exists (static_apology e). split; [reflexivity |].
  assert (Hlen : String.length (static_apology e)
                 = 240 + String.length (slice_to 100 e)).
  { unfold static_apology. rewrite !length_append.
    change (String.length Text.difficulties) with 237.
    cbn [String.length]. lia. }
  pose proof (slice_to_length 100 e) as Hs.
  split; [lia |]. split.
  - unfold validated.
    destruct (Nat.ltb_spec (String.length (static_apology e)) 10); [lia |].
    now destruct (static_apology e).
  - intros Hshort. unfold static_apology. now rewrite slice_to_short.
Qed.

Lemma apology_bounds_witness :
  is_construction_related "steel cost" = true
  /\ fst (generate_response Sample.w_down "steel cost" Sample.online)
     = Ok (Text.difficulties ++ "quota exceeded" ++ "...").
Proof.
  split; [reflexivity |].
  destruct (apology_bounds Sample.w_down "steel cost" "timeout"
              "quota exceeded" Sample.online eq_refl eq_refl eq_refl)
    as (r & Hr & _ & _ & Hshort).
  rewrite Hr. f_equal. apply Hshort. cbn. lia.
Defined.

Lemma empty_text_only_from_direct_witness :
  fst (generate_response Sample.w_empty "steel cost" Sample.online) = Ok ""
  /\ invoke Sample.w_empty
       (direct_prompt "steel cost" (get_chat_history (self Sample.online)))
     = Returns "".
Proof.
  split; [reflexivity |].
  apply (empty_text_only_from_direct Sample.w_empty "steel cost"
           Sample.online).
  reflexivity.
Defined.

(** X7. [generate_response_direct], called on its own, never raises and
    records exactly one Exchange: the decline literal without any call for a
    query that the gate rejects, and otherwise, after one call of the
    language model, its text or the apology with the error. *)
Theorem direct_method_alone (w : World) (q : string) (s : Sys) :
  let prompt := direct_prompt q (get_chat_history (self s)) in
  exists r evs,
    generate_response_direct w q s = (Ok r, commit s evs q r)
    /\ ((is_construction_related q = false
         /\ evs = [] /\ r = Text.decline)
        \/ (is_construction_related q = true
            /\ evs = [Invoke prompt]
            /\ (invoke w prompt = Returns r
                \/ exists e, invoke w prompt = Raises e
                             /\ r = Text.difficulties ++ slice_to 100 e
                                    ++ "..."))).
Proof.
  cbv zeta. destruct (is_construction_related q) eqn:Hq.
  - rewrite (direct_run w q s Hq). cbv zeta.
    destruct (invoke w _) as [text | e] eqn:Hi.
    + exists text, [Invoke (direct_prompt q (get_chat_history (self s)))].
      split; [reflexivity |]. right. repeat split. now left.
    + exists (static_apology e),
        [Invoke (direct_prompt q (get_chat_history (self s)))].
      split; [reflexivity |]. right. repeat split. right. now exists e.
  - rewrite (declined_direct_run w q s Hq).
    exists Text.decline, []. split; [reflexivity |]. left. repeat split.
Qed.

(** ** The gate and the heuristic *)

Lemma any_keyword_occurs (l : list string) (q : string) :
  any (fun keyword => str_in keyword (lower q)) l = true
  <-> exists k, In k l /\ occurs k (lower q).
Proof.
  unfold any. rewrite existsb_exists.
  split; intros (k & Hk & H); exists k; split; try assumption;
    now apply occurs_str_in.
Qed.


Lemma any_keyword_around (l : list string) (pre q post : string) :
  any (fun keyword => str_in keyword (lower q)) l = true ->
  any (fun keyword => str_in keyword (lower (pre ++ q ++ post))) l = true.
Proof.
  rewrite !any_keyword_occurs. intros (k & Hk & H). exists k.
  split; [exact Hk |]. rewrite !lower_app. now apply occurs_inside.
Qed.

Lemma any_keyword_lower (l : list string) (q : string) :
  any (fun keyword => str_in keyword (lower (lower q))) l
  = any (fun keyword => str_in keyword (lower q)) l.
Proof. now rewrite lower_idem. Qed.

(** X9. Text added before or after a query never turns an accepted query
    into a rejected one, nor a query that asks for retrieval into one that
    does not; and lower-casing a query changes neither decision. *)
Theorem gate_monotone (pre q post : string) :
  (is_construction_related q = true ->
   is_construction_related (pre ++ q ++ post) = true)
  /\ (needs_search q = true -> needs_search (pre ++ q ++ post) = true)
  /\ is_construction_related (lower q) = is_construction_related q
  /\ needs_search (lower q) = needs_search q.
Proof.
  unfold is_construction_related, needs_search. cbv zeta.
  split; [apply any_keyword_around |].
  split; [apply any_keyword_around |].
  split; apply any_keyword_lower.
Qed.

Lemma gate_monotone_witness :
  is_construction_related "rebar" = true
  /\ is_construction_related ("Which " ++ "rebar" ++ " should I buy?") = true.
Proof.
  split; [reflexivity |].
  exact (proj1 (gate_monotone "Which " "rebar" " should I buy?") eq_refl).
Defined.

(** X10. A query made of whitespace only, the empty query included, is
    declined by [generate_response]: no collaborator is called and the
    Exchange of the query and the decline literal is recorded. *)
Theorem whitespace_query_declined (w : World) (q : string) (s : Sys) :
  strip q = "" ->
  fst (generate_response w q s) = Ok Text.decline
  /\ calls (snd (generate_response w q s)) = calls s
  /\ exists older,
       memory (self (snd (generate_response w q s)))
       = (older ++ [(q, Text.decline)])%list.
Proof.
  intros H. rewrite generate_response_turn. unfold turn.
  rewrite (blank_query_out_of_domain q H).
  cbn [fst snd commit calls self memory set_memory].
  split; [reflexivity |]. split; [apply app_nil_r |].
  unfold window_after. now eexists.
Qed.

Lemma whitespace_query_declined_witness :
  strip "   " = ""
  /\ fst (generate_response Sample.w_crew "   " Sample.online)
     = Ok Text.decline.
Proof.
  split; [reflexivity |].
  apply (whitespace_query_declined Sample.w_crew "   " Sample.online).
  reflexivity.
Defined.

(** An accepted query always starts with the kickoff of the selected
    crew. *)
Lemma calls_prefix (w : World) (q : string) (s : Sys) :
  is_construction_related q = true ->
  let history := get_chat_history (self s) in
  exists rest,
    calls (snd (generate_response w q s))
    = (calls s ++ Kickoff (select_crew (self s) q history) :: rest)%list.
Proof.
  intros Hq. cbv zeta. rewrite generate_response_turn. unfold turn.
  rewrite Hq. cbv zeta.
  destruct (kickoff w _); [| destruct (invoke w _)];
    cbn [snd commit calls]; now eexists.
Qed.

(** ** The configuration across a run *)

Lemma run_config (ops : list Op) (s : Sys) :
  search_tool (self (run ops s)) = search_tool (self s)
  /\ construction_agent (self (run ops s)) = construction_agent (self s)
  /\ research_agent (self (run ops s)) = research_agent (self s).
Proof.
  revert s. induction ops as [|op ops IH]; intros s; [repeat split |].
  cbn [run fold_left]. destruct (IH (step s op)) as (H1 & H2 & H3).
  destruct (step_config s op) as (K1 & K2 & K3).
  unfold run in *. now rewrite H1, H2, H3, K1, K2, K3.
Qed.

(** X11. Nothing that runs after construction changes the tool or the
    agents: the research agent exists exactly when the tool does and holds
    exactly that tool, the construction agent holds the tool when there is
    one and nothing otherwise, neither agent delegates, and the ceilings
    stay 3 iterations and 45 seconds, 2 iterations and 30 seconds. *)
Theorem configuration_is_fixed (o : built) (ops : list Op) :
  let b := self (run ops (boot o)) in
  search_tool b = setup_tools o
  /\ (research_agent b = None <-> search_tool b = None)
  /\ tools (construction_agent b)
     = match search_tool b with
       | Some t => [t]
       | None => []
       end
  /\ allow_delegation (construction_agent b) = false
  /\ max_iter (construction_agent b) = 3
  /\ max_execution_time (construction_agent b) = 45
  /\ forall ra, research_agent b = Some ra ->
       (exists t, search_tool b = Some t /\ tools ra = [t])
       /\ allow_delegation ra = false
       /\ max_iter ra = 2
       /\ max_execution_time ra = 30.
Proof.
  cbv zeta. destruct (run_config ops (boot o)) as (H1 & H2 & H3).
  rewrite H1, H2, H3. destruct o as [t | msg]; cbn.
  - do 6 (split; [try reflexivity; split; discriminate |]).
    intros ra Hra. inversion Hra. repeat split. now exists t.
  - do 6 (split; [try reflexivity; split; reflexivity |]).
    intros ra Hra. discriminate Hra.
Qed.

Lemma configuration_is_fixed_witness :
  research_agent (self (run [OpClear] Sample.online))
  = Some (mkAgent Text.research_role Text.research_goal
                  Text.research_backstory [SerperDevTool] false 2 30)
  /\ max_iter (mkAgent Text.research_role Text.research_goal
                       Text.research_backstory [SerperDevTool] false 2 30)
     = 2.
Proof.
  split; [reflexivity |].
  destruct (configuration_is_fixed (Built SerperDevTool) [OpClear])
    as (_ & _ & _ & _ & _ & _ & H).
  destruct (H _ eq_refl) as (_ & _ & Hiter & _). exact Hiter.
Defined.

(** X12. With the tool at hand, an in-domain query starts the two-task
    research crew exactly when it contains a search keyword, and the
    one-task crew otherwise. In the research crew the research task comes
    first, runs on the agent that holds the tool, and is the whole context
    of the response task. *)
Theorem online_routing (t : Tool) (ops : list Op) (w : World) (q : string) :
  let s := run ops (boot (Built t)) in
  let history := get_chat_history (self s) in
  is_construction_related q = true ->
  exists crew rest,
    calls (snd (generate_response w q s))
    = (calls s ++ Kickoff crew :: rest)%list
    /\ (if needs_search q then
          exists research_task response_task,
            tasks crew = [research_task; response_task]
            /\ task_context research_task = []
            /\ task_context response_task = [research_task]
            /\ tools (task_agent research_task) = [t]
            /\ agents crew
               = [task_agent research_task; task_agent response_task]
        else crew = direct_crew (self s) q history).
Proof.
  intros s history Hq.
  destruct (run_config ops (boot (Built t))) as (_ & _ & H3).
  fold s in H3. cbn in H3.
  exists (select_crew (self s) q history).
  assert (Hcalls := calls_prefix w q s Hq). cbv zeta in Hcalls.
  destruct Hcalls as [rest Hrest]. exists rest. split; [exact Hrest |].
  unfold select_crew. rewrite H3.
  destruct (needs_search q); [| reflexivity].
  unfold research_crew. cbn [tasks agents].
  do 2 eexists. repeat split.
Qed.

Lemma online_routing_witness :
  is_construction_related "How deep should a foundation be?" = true
  /\ needs_search "How deep should a foundation be?" = false
  /\ exists rest,
       calls (snd (generate_response Sample.w_crew
                     "How deep should a foundation be?" Sample.online))
       = Kickoff (direct_crew (self Sample.online)
                    "How deep should a foundation be?"
                    (get_chat_history (self Sample.online))) :: rest.
Proof.
  split; [reflexivity | split; [reflexivity |]].
  destruct (online_routing SerperDevTool [] Sample.w_crew
              "How deep should a foundation be?" eq_refl)
    as (crew & rest & Hcalls & Hcrew).
  exists rest.
  change (needs_search "How deep should a foundation be?") with false
    in Hcrew.
  cbv iota in Hcrew. subst crew. exact Hcalls.
Defined.

(** ** The handlers *)

(** X13. For a message that is not blank, [respond] runs one turn of
    [generate_response] and returns the history it was given (the empty one
    for [None]) followed by the user message and by the assistant message
    that carries the text of that turn, with an empty text box; the text of
    its own error branch is never used. *)
Theorem respond_appends_turn (w : World) (message : string)
    (history : option (list ChatMessage)) (s : Sys) :
  strip message <> "" ->
  exists r,
    fst (generate_response w message s) = Ok r
    /\ respond w message history s
       = (Ok (Some (match history with
                    | None => []
                    | Some h => h
                    end
                    ++ [mkMsg "user" message; mkMsg "assistant" r])%list,
              "",
              status_of (snd (generate_response w message s))),
          snd (generate_response w message s)).
Proof.
  intros H. exists (fst (turn w message s)).
  split; [now rewrite generate_response_turn |].
  unfold respond. destruct (strip message) as [|c t]; [congruence |].
  cbn [is_empty]. unfold bind at 1, try_except, bind at 1.
  rewrite generate_response_turn. unfold ret, bind.
  rewrite update_memory_display_run. cbn [fst snd].
  now rewrite <- app_assoc.
Qed.

Lemma respond_appends_turn_witness :
  strip "steel cost" <> ""
  /\ fst (respond Sample.w_crew "steel cost" None Sample.online)
     = Ok (Some [mkMsg "user" "steel cost";
                 mkMsg "assistant" "Grade 60 rebar is the usual choice."],
           "", mkStatus true "status-online" 1).
Proof.
  assert (H : strip "steel cost" <> "") by discriminate.
  split; [exact H |].
  destruct (respond_appends_turn Sample.w_crew "steel cost" None
              Sample.online H) as (r & Hr & Hrun).
  rewrite Hrun. inversion Hr. reflexivity.
Defined.

Lemma turn_text_of_self (w : World) (q : string) (s1 s2 : Sys) :
  self s1 = self s2 -> fst (turn w q s1) = fst (turn w q s2).
Proof. intros H. unfold turn. now rewrite H. Qed.

(** X14. [clear_chat] puts the chatbot back to what the constructor built,
    whatever ran before, and leaves the call trace alone: the next query is
    answered as a fresh chatbot would answer it. *)
Theorem clear_chat_resets (o : built) (ops : list Op) (w : World)
    (q : string) :
  let s := run ops (boot o) in
  self (snd (clear_chat s)) = init o
  /\ calls (snd (clear_chat s)) = calls s
  /\ get_chat_history (self (snd (clear_chat s))) = "No previous conversation."
  /\ fst (generate_response w q (snd (clear_chat s)))
     = fst (generate_response w q (boot o)).
Proof.
  cbv zeta. destruct (run_config ops (boot o)) as (H1 & H2 & H3).
  assert (Hself : self (snd (clear_chat (run ops (boot o)))) = init o).
  { cbn [clear_chat bind modify_memory update_memory_display get_status_info
         get_self ret snd self].
    unfold set_memory. rewrite H1, H2, H3. now destruct o. }
  split; [exact Hself |]. split; [reflexivity |].
  split; [rewrite Hself; now destruct o |].
  rewrite !generate_response_turn. cbn [fst]. f_equal.
  apply turn_text_of_self. exact Hself.
Qed.

(** ** What the history shows *)

Lemma occurs_refl (s : string) : occurs s s.
Proof. exists "", "". cbn [append]. now rewrite append_nil_r. Qed.

Lemma occurs_app_l (sub a b : string) : occurs sub a -> occurs sub (a ++ b).
Proof.
  intros (pre & post & ->). exists pre, (post ++ b).
  now rewrite !append_assoc.
Qed.

Lemma occurs_app_r (sub a b : string) : occurs sub b -> occurs sub (a ++ b).
Proof.
  intros (pre & post & ->). exists (a ++ pre), post.
  now rewrite !append_assoc.
Qed.

Lemma occurs_trans (a b c : string) : occurs a b -> occurs b c -> occurs a c.
Proof. intros H (pre & post & ->). now apply occurs_inside. Qed.

Lemma enumerate_in {A} (l : list A) (e : A) (start : nat) :
  In e l -> exists i, In (i, e) (enumerate l start).
Proof.
  unfold enumerate. revert start.
  induction l as [|x l IH]; intros start H; [destruct H |].
  cbn [List.length seq combine]. destruct H as [-> | H].
  - exists start. now left.
  - destruct (IH (S start) H) as [i Hi]. exists i. now right.
Qed.

Lemma terminated_occurs (x : string) (l : list string) :
  In x l -> occurs x (terminated l).
Proof.
  induction l as [|y l IH]; intros H; [destruct H |].
  cbn [terminated]. destruct H as [-> | H].
  - apply occurs_app_l, occurs_refl.
  - now apply occurs_app_r, occurs_app_r, IH.
Qed.

Lemma block_occurs (i : nat) (q r : string) :
  occurs q (block (i, (q, r))) /\ occurs r (block (i, (q, r))).
Proof.
  unfold block. cbn [fst snd]. split.
  - apply occurs_app_r, occurs_app_r, occurs_app_r, occurs_app_l,
      occurs_refl.
  - do 5 apply occurs_app_r. apply occurs_refl.
Qed.

Lemma block_split (i : nat) (e : Exchange) :
  block (i, e) = block_head_text i (fst e) ++ String " " (snd e).
Proof.
  unfold block, block_head_text. cbn [fst snd].
  rewrite !append_assoc. reflexivity.
Qed.

Lemma block_head_text_rstrip (i : nat) (q : string) :
  rstrip (block_head_text i q) = block_head_text i q.
Proof.
  unfold block_head_text. rewrite <- !append_assoc.
  now rewrite rstrip_app_kept by discriminate.
Qed.

(** Stripping a block never reaches back into its query. *)
Lemma block_rstrip_prefix (i : nat) (e : Exchange) :
  exists z, rstrip (block (i, e)) = block_head_text i (fst e) ++ z.
Proof.
  rewrite block_split. destruct e as [q r]. cbn [fst snd].
  destruct (rstrip (String " " r)) as [|c t] eqn:E.
  - exists "". rewrite rstrip_app_space
      by now apply rstrip_nil_all_space.
    now rewrite block_head_text_rstrip, append_nil_r.
  - exists (String c t). rewrite rstrip_app_kept by (rewrite E; discriminate).
    now rewrite E.
Qed.

Lemma block_head_text_occurs (i : nat) (q : string) :
  occurs q (block_head_text i q).
Proof.
  unfold block_head_text.
  apply occurs_app_r, occurs_app_r, occurs_app_r, occurs_app_l, occurs_refl.
Qed.

Lemma history_last_occurs (b : ConstructionChatbot) (m : list Exchange)
    (q r : string) :
  memory b = (m ++ [(q, r)])%list -> occurs q (get_chat_history b).
Proof.
  intros Hm. rewrite (get_chat_history_snoc b m (q, r) Hm).
  pose proof (block_rstrip_prefix (S (List.length m)) (q, r)) as [z Hz].
  rewrite Hz. cbn [fst]. apply occurs_app_r, occurs_app_l, block_head_text_occurs.
Qed.

Lemma history_earlier_occurs (b : ConstructionChatbot) (m : list Exchange)
    (last : Exchange) (q r : string) :
  memory b = (m ++ [last])%list -> In (q, r) m ->
  occurs q (get_chat_history b) /\ occurs r (get_chat_history b).
Proof.
  intros Hm Hin. rewrite (get_chat_history_snoc b m last Hm).
  destruct (enumerate_in m (q, r) 1 Hin) as [i Hi].
  assert (Hb : occurs (block (i, (q, r)))
                 (terminated (map block (enumerate m 1)))).
  { apply terminated_occurs, in_map_iff. now exists (i, (q, r)). }
  destruct (block_occurs i q r) as [Hq Hr].
  split; apply occurs_app_l; eapply occurs_trans; eauto.
Qed.

(** X15. Every query held in the window occurs verbatim in the formatted
    history, and so does every response but possibly the last one. *)
Theorem history_shows_window (b : ConstructionChatbot) :
  (forall q r, In (q, r) (memory b) ->
     str_in q (get_chat_history b) = true)
  /\ (forall m last q r, memory b = (m ++ [last])%list -> In (q, r) m ->
        str_in r (get_chat_history b) = true).
Proof.
  split.
  - intros q r Hin. apply occurs_str_in.
    destruct (memory b) as [|x l] eqn:Hm; [destruct Hin |].
    destruct (@exists_last _ (x :: l)) as (m & [q' r'] & E); [discriminate |].
    rewrite E in Hin, Hm. apply in_app_or in Hin as [Hin | Hin].
    + now apply (history_earlier_occurs b m (q', r') q r Hm).
    + destruct Hin as [Hin | []]. inversion Hin; subst.
      now apply (history_last_occurs b m q r).
  - intros m last q r Hm Hin. apply occurs_str_in.
    now apply (history_earlier_occurs b m last q r Hm).
Qed.

Lemma history_shows_window_witness :
  In ("steel cost", "Use rebar.
") (memory Sample.after_direct)
  /\ str_in "steel cost" (get_chat_history Sample.after_direct) = true.
Proof.
  assert (H : In ("steel cost", "Use rebar.
") (memory Sample.after_direct)) by (left; reflexivity).
  split; [exact H |].
  exact (proj1 (history_shows_window Sample.after_direct) _ _ H).
Defined.

Lemma first_head_text (q z : string) :
  block_head_text 1 q ++ z
  = "Message 1:
User: " ++ q ++ "
Assistant:" ++ z.
Proof.
  unfold block_head_text. change (str_of_nat 1) with "1".
  rewrite !append_assoc. reflexivity.
Qed.

(** X16. The formatted history is never empty and carries no whitespace at
    either end; for a window that is not empty it starts with the header of
    message 1 and the oldest query held. *)
Theorem history_is_stripped (b : ConstructionChatbot) :
  get_chat_history b <> ""
  /\ strip (get_chat_history b) = get_chat_history b
  /\ forall q r others, memory b = (q, r) :: others ->
       exists rest,
         get_chat_history b
         = "Message 1:
User: " ++ q ++ "
Assistant:" ++ rest.
Proof.
  split; [| split].
  - destruct (memory b) as [|x l] eqn:Hm.
    + unfold get_chat_history. rewrite Hm. discriminate.
    + destruct (@exists_last _ (x :: l)) as (m & e & E); [discriminate |].
      rewrite E in Hm. rewrite (get_chat_history_snoc b m e Hm).
      intros Hnil.
      destruct (terminated (map block (enumerate m 1))); [| discriminate].
      now apply (block_rstrip_kept (S (List.length m), e)).
  - unfold get_chat_history.
    destruct (memory b); [reflexivity | apply strip_idem].
  - intros q r others Hm.
    destruct (@exists_last _ ((q, r) :: others)) as (m & [q' r'] & E);
      [discriminate |].
    rewrite E in Hm. rewrite (get_chat_history_snoc b m (q', r') Hm).
    destruct m as [|x m]; cbn [app] in E; inversion E; subst.
    + pose proof (block_rstrip_prefix 1 (q', r')) as [z Hz].
      cbn [List.length]. rewrite Hz. cbn [fst]. exists z.
      cbn [enumerate List.length seq combine map terminated append].
      apply first_head_text.
    + eexists. cbn [enumerate List.length seq combine map terminated].
      rewrite (block_split 1 (q, r)), !append_assoc. cbn [fst].
      apply first_head_text.
Qed.

Lemma history_is_stripped_witness :
  memory Sample.after_direct = ("steel cost", "Use rebar.
") :: []
  /\ exists rest,
       get_chat_history Sample.after_direct
       = "Message 1:
User: " ++ "steel cost" ++ "
Assistant:" ++ rest.
Proof.
  split; [reflexivity |].
  exact (proj2 (proj2 (history_is_stripped Sample.after_direct))
           _ _ _ eq_refl).
Defined.

(** ** From one turn to the next *)

Lemma validated_rstrip (result : string) :
  rstrip (validated (strip result)) = validated (strip result).
Proof.
  unfold validated.
  destruct (is_empty (strip result)
            || (String.length (strip result) <? 10)%nat);
    [reflexivity | apply rstrip_idem].
Qed.

Lemma history_last_response (b : ConstructionChatbot) (m : list Exchange)
    (q r : string) :
  memory b = (m ++ [(q, r)])%list -> r <> "" -> rstrip r = r ->
  occurs r (get_chat_history b).
Proof.
  intros Hm Hne Hr. rewrite (get_chat_history_snoc b m (q, r) Hm).
  assert (Hk : rstrip r <> "") by now rewrite Hr.
  pose proof (block_rstrip (S (List.length m)) q r Hk) as Hb.
  change (block (S (List.length m), (q, r)))
    with (block (S (List.length m), ((q, r) : Exchange))) in Hb.
  rewrite Hb, Hr.
  do 6 apply occurs_app_r. apply occurs_refl.
Qed.

Lemma select_crew_carries_history (b : ConstructionChatbot)
    (q history : string) :
  exists t, In t (tasks (select_crew b q history))
            /\ occurs history (task_description t).
Proof.
  unfold select_crew.
  destruct (needs_search q); [destruct (research_agent b) as [ra |] |].
  - eexists. split; [right; left; reflexivity |].
    cbn [task_description].
    apply occurs_app_r, occurs_app_r, occurs_app_r, occurs_app_l, occurs_refl.
  - eexists. split; [left; reflexivity |].
    cbn [task_description].
    apply occurs_app_r, occurs_app_r, occurs_app_r, occurs_app_l, occurs_refl.
  - eexists. split; [left; reflexivity |].
    cbn [task_description].
    apply occurs_app_r, occurs_app_r, occurs_app_r, occurs_app_l, occurs_refl.
Qed.

(** X17. After a turn that the crew answered, the history of the next turn
    holds the query and the answer of that turn verbatim, and this history
    is part of what the next turn hands to its collaborators: the
    description of a task of the crew it selects, and the prompt of the
    direct call. *)
Theorem next_turn_sees_answer (w : World) (q q' result : string) (s : Sys) :
  is_construction_related q = true ->
  kickoff w (select_crew (self s) q (get_chat_history (self s)))
  = Returns result ->
  let b := self (snd (generate_response w q s)) in
  let history := get_chat_history b in
  exists r,
    fst (generate_response w q s) = Ok r
    /\ str_in q history = true
    /\ str_in r history = true
    /\ str_in history (direct_prompt q' history) = true
    /\ exists t, In t (tasks (select_crew b q' history))
                 /\ str_in history (task_description t) = true.
Proof.
  intros Hq Hk. cbv zeta. rewrite generate_response_turn. unfold turn.
  rewrite Hq. cbv zeta. rewrite Hk. cbn [fst snd].
  set (r := validated (strip result)).
  set (b := self (commit s _ q r)).
  assert (Hm : memory b
               = ((if (List.length (memory (self s)) <? 5)%nat
                   then memory (self s) else tl (memory (self s)))
                  ++ [(q, r)])%list) by reflexivity.
  exists r. split; [reflexivity |].
  split; [eapply occurs_str_in, history_last_occurs, Hm |].
  split.
  { eapply occurs_str_in, history_last_response; [exact Hm | |].
    - apply validated_not_empty.
    - apply validated_rstrip. }
  split.
  { apply occurs_str_in. unfold direct_prompt.
    apply occurs_app_r, occurs_app_l, occurs_refl. }
  destruct (select_crew_carries_history b q' (get_chat_history b))
    as (t & Hin & Hocc).
  exists t. split; [exact Hin | now apply occurs_str_in].
Qed.

Lemma next_turn_sees_answer_witness :
  is_construction_related "steel cost" = true
  /\ str_in "Grade 60 rebar is the usual choice."
       (get_chat_history
          (self (snd (generate_response Sample.w_crew "steel cost"
                        Sample.online)))) = true.
Proof.
  split; [reflexivity |].
  destruct (next_turn_sees_answer Sample.w_crew "steel cost" "rebar"
              "  Grade 60 rebar is the usual choice.  " Sample.online
              eq_refl eq_refl) as (r & Hr & _ & Hin & _).
  inversion Hr as [Hstrip]. rewrite <- Hstrip in Hin. exact Hin.
Defined.

(** ** Start-up *)



(** ** Counting turns *)

Lemma window_after_count (m : list Exchange) (q r : string) :
  List.length m <= 5 ->
  List.length (window_after m q r) = Nat.min (S (List.length m)) 5.
Proof.
  intros H. unfold window_after. rewrite List.length_app. cbn [List.length].
  destruct (Nat.ltb_spec (List.length m) 5) as [Hlt | Hge]; [lia |].
  destruct m as [|e m]; cbn [List.length tl] in *; lia.
Qed.

Lemma run_turns_count (l : list (World * string)) (s : Sys) :
  List.length (memory (self s)) <= 5 ->
  List.length (memory (self (run (turns l) s)))
  = Nat.min (List.length (memory (self s)) + List.length l) 5.
Proof.
  revert s. induction l as [|[w q] l IH]; intros s H.
  - cbn [turns map run fold_left List.length]. lia.
  - cbn [turns map run fold_left step fst snd].
    fold (turns l). fold (run (turns l)).
    rewrite generate_response_turn. cbn [snd].
    rewrite IH; cbn [commit self memory set_memory].
    + rewrite window_after_count by exact H. cbn [List.length]. lia.
    + now apply window_after_length.
Qed.

(** X19. After n calls of [generate_response] on a freshly constructed
    chatbot the window holds min(n, 5) Exchanges, and this is the count that
    [get_status_info] reports: every call counts, the declined and the
    degraded ones too. *)
Theorem turns_are_counted (o : built) (l : list (World * string)) :
  List.length (memory (self (run (turns l) (boot o))))
  = Nat.min (List.length l) 5
  /\ fst (get_status_info (run (turns l) (boot o)))
     = Ok (mkStatus (match setup_tools o with
                     | Some _ => true
                     | None => false
                     end)
                    (match setup_tools o with
                     | Some _ => "status-online"
                     | None => "status-offline"
                     end)
                    (Nat.min (List.length l) 5)).
Proof.
  assert (Hcount := run_turns_count l (boot o)).
  assert (H0 : List.length (memory (self (boot o))) = 0) by now destruct o.
  rewrite H0 in Hcount. specialize (Hcount (Nat.le_0_l 5)).
  cbn [plus] in Hcount. split; [exact Hcount |].
  destruct (run_config (turns l) (boot o)) as (Htool & _).
  cbn [get_status_info bind get_self ret fst].
  rewrite Hcount, Htool. now destruct o.
Qed.
